(** * pydantic_to_snowflake: a shallow embedding of [PydanticToSnowflake]

    The development follows [src/pydantic_to_snowflake.py] top to bottom:
    the type mapper ([get_snowflake_type]), the value normalizer
    ([_make_json_serializable], [convert_value]), the DDL builder
    ([get_create_table_sql]), the schema comparator ([check_table_schema])
    and the writer ([create_table], [insert_data]).

    Python exceptions are results of type [outcome]; calls on the warehouse
    connection are actions that append to a trace of the calls made, so that
    "was attempted", "exactly once" and "before any SQL" are statements about
    that trace.  What Python itself or a third-party package computes
    ([str()], [json.dumps], pydantic's [model_dump]) is a variable of the
    section that uses it. *)

From Stdlib Require Import ZArith List String Ascii Bool Arith Lia Permutation.
From Stdlib Require Import DecimalString.
From ExtLib Require Import Structures.Monad.
Import ListNotations.
Import MonadNotation.
Local Open Scope string_scope.
Local Open Scope monad_scope.
Set Warnings "-register-all".

(** ** Text *)

Module Text.

(** [str.upper()] on ASCII text: identifiers, SQL type names and catalog
    columns are ASCII; bytes outside [a-z] are left alone.  On text that
    is not ASCII, [str.upper()] follows Unicode and this function does not:
    a statement that needs the two to agree on all of its text assumes
    [ascii_text]. *)
Definition upper_ascii (c : ascii) : ascii :=
  let n := nat_of_ascii c in
  if (97 <=? n)%nat && (n <=? 122)%nat then ascii_of_nat (n - 32) else c.

Fixpoint upper (s : string) : string :=
  match s with
  | EmptyString => EmptyString
  | String c rest => String (upper_ascii c) (upper rest)
  end.

(** Text made of ASCII characters only; [upper] is [str.upper()] on it. *)
Fixpoint ascii_text (s : string) : bool :=
  match s with
  | EmptyString => true
  | String c rest => (nat_of_ascii c <? 128)%nat && ascii_text rest
  end.

(** [needle in hay] on text: substring containment. *)
Fixpoint str_in (needle hay : string) : bool :=
  if String.prefix needle hay then true
  else match hay with
       | EmptyString => false
       | String _ rest => str_in needle rest
       end.

(** [sep.join(parts)] *)
Definition join (sep : string) (parts : list string) : string :=
  String.concat sep parts.

End Text.
Import Text.

(** ** Exceptions and results *)

Inductive exn_class : Type :=
| ImportError
| ModuleNotFoundError          (* subclass of ImportError *)
| TypeError
| AttributeError
| ValueError
| RuntimeError
| OtherException (name : string).

(** An exception instance; [exn_message] is what [str(e)] and an f-string
    [{e}] render.  Every modelled class derives from [Exception]. *)
Record exn : Type := mk_exn { exn_cls : exn_class; exn_message : string }.

Definition is_ImportError (e : exn) : bool :=
  match exn_cls e with
  | ImportError | ModuleNotFoundError => true
  | _ => false
  end.

Definition is_TypeError (e : exn) : bool :=
  match exn_cls e with
  | TypeError => true
  | _ => false
  end.

Definition is_Exception (_ : exn) : bool := true.

Inductive outcome (A : Type) : Type :=
| Return (a : A)
| Raise (e : exn).
Arguments Return {A} a.
Arguments Raise {A} e.

#[global] Instance Monad_outcome : Monad outcome :=
  {| ret := fun _ a => Return a;
     bind := fun _ _ c k => match c with
                            | Return a => k a
                            | Raise e => Raise e
                            end |}.

(** [try: body except <clauses>] for a computation without side effects.
    The first clause whose class test accepts the exception runs; what a
    clause raises is not offered to the clauses after it. *)
Fixpoint select_clause {H : Type} (clauses : list ((exn -> bool) * H)) (e : exn)
  : option H :=
  match clauses with
  | [] => None
  | (accepts, handler) :: rest =>
      if accepts e then Some handler else select_clause rest e
  end.

Definition try_pure {A : Type} (body : outcome A)
  (clauses : list ((exn -> bool) * (exn -> outcome A))) : outcome A :=
  match body with
  | Return a => Return a
  | Raise e =>
      match select_clause clauses e with
      | Some handler => handler e
      | None => Raise e
      end
  end.

(** ** Python values *)

Inductive pyval : Type :=
| PNone
| PBool (b : bool)
| PInt (n : Z)
| PFloat (repr : string)                 (* a float, named by its repr *)
| PStr (s : string)
| PList (items : list pyval)
| PTuple (items : list pyval)
| PSet (items : list pyval)              (* in iteration order *)
| PDict (entries : list (pyval * pyval)) (* in insertion order *)
| PModel (cls : string) (fields : list (string * pyval))  (* BaseModel instance *)
| PNumpy (item : pyval)                  (* np.generic scalar; [item] is what .item() returns *)
| PObject (descr : string)               (* another object that holds no value: datetime, Decimal, bytes *)
| PForeign (descr : string) (clean : bool).
    (* another object that holds values and that no branch opens: a deque,
       a frozenset, a mapping proxy; [clean] says whether it and all it
       holds are free of tuples, sets, records and non-text keys *)

(** Induction over values, through the lists and pairs they nest in. *)
Section pyval_induction.

Variable P : pyval -> Prop.
Hypothesis case_None : P PNone.
Hypothesis case_Bool : forall b, P (PBool b).
Hypothesis case_Int : forall n, P (PInt n).
Hypothesis case_Float : forall r, P (PFloat r).
Hypothesis case_Str : forall s, P (PStr s).
Hypothesis case_List : forall items, Forall P items -> P (PList items).
Hypothesis case_Tuple : forall items, Forall P items -> P (PTuple items).
Hypothesis case_Set : forall items, Forall P items -> P (PSet items).
Hypothesis case_Dict :
  forall entries, Forall (fun kv => P (fst kv) /\ P (snd kv)) entries ->
                  P (PDict entries).
Hypothesis case_Model :
  forall cls fields, Forall (fun kv => P (snd kv)) fields -> P (PModel cls fields).
Hypothesis case_Numpy : forall item, P item -> P (PNumpy item).
Hypothesis case_Object : forall d, P (PObject d).
Hypothesis case_Foreign : forall d clean, P (PForeign d clean).

Fixpoint pyval_nested_ind (v : pyval) : P v :=
  let all :=
    fix all (l : list pyval) : Forall P l :=
      match l with
      | [] => Forall_nil P
      | x :: rest => Forall_cons x (pyval_nested_ind x) (all rest)
      end in
  match v with
  | PNone => case_None
  | PBool b => case_Bool b
  | PInt n => case_Int n
  | PFloat r => case_Float r
  | PStr s => case_Str s
  | PList items => case_List items (all items)
  | PTuple items => case_Tuple items (all items)
  | PSet items => case_Set items (all items)
  | PDict entries =>
      case_Dict entries
        ((fix all_entries (l : list (pyval * pyval))
            : Forall (fun kv => P (fst kv) /\ P (snd kv)) l :=
            match l with
            | [] => Forall_nil _
            | (k, x) :: rest =>
                Forall_cons (k, x)
                  (conj (pyval_nested_ind k) (pyval_nested_ind x))
                  (all_entries rest)
            end) entries)
  | PModel cls fields =>
      case_Model cls fields
        ((fix all_fields (l : list (string * pyval))
            : Forall (fun kv => P (snd kv)) l :=
            match l with
            | [] => Forall_nil _
            | (name, x) :: rest =>
                Forall_cons (name, x) (pyval_nested_ind x) (all_fields rest)
            end) fields)
  | PNumpy item => case_Numpy item (pyval_nested_ind item)
  | PObject d => case_Object d
  | PForeign d clean => case_Foreign d clean
  end.

End pyval_induction.

(** ** Classes and annotations *)

Inductive builtin_class : Type :=
| c_object | c_bool | c_int | c_float | c_str | c_datetime | c_date
| c_BaseModel | c_list | c_dict | c_tuple | c_set.

Inductive pyclass : Type :=
| Builtin (b : builtin_class)
| UserClass (name : string) (bases : list pyclass).

Definition builtin_eq_dec (a b : builtin_class) : {a = b} + {a <> b}.
Proof. decide equality. Defined.

Fixpoint class_eqb (a b : pyclass) : bool :=
  match a, b with
  | Builtin x, Builtin y => if builtin_eq_dec x y then true else false
  | UserClass n bs, UserClass m cs =>
      String.eqb n m &&
      (fix all_eqb (xs ys : list pyclass) : bool :=
         match xs, ys with
         | [], [] => true
         | x :: xs', y :: ys' => class_eqb x y && all_eqb xs' ys'
         | _, _ => false
         end) bs cs
  | _, _ => false
  end.

(** The classes [issubclass(c, _)] accepts by the default test: [c] and
    everything it inherits from.  The list is not linearised the way
    [__mro__] is; only membership is used.  A class that answers through
    registered (virtual) subclasses or a hook is an [Abstract] below.
    [BaseModel] has an [ABCMeta] metaclass: [Builtin c_BaseModel] is
    [BaseModel] with no class registered with it, and in the chain of lines
    35-49 a registration would change nothing, lines 49 and 52 returning the
    same type. *)
Fixpoint ancestors (c : pyclass) : list pyclass :=
  c :: match c with
       | Builtin c_object => []
       | Builtin c_bool => [Builtin c_int; Builtin c_object]
       | Builtin c_datetime => [Builtin c_date; Builtin c_object]
       | Builtin _ => [Builtin c_object]
       | UserClass _ bases => (flat_map ancestors bases ++ [Builtin c_object])%list
       end.

Definition is_subclass (c k : pyclass) : bool :=
  existsb (class_eqb k) (ancestors c).

Inductive origin : Type :=
| origin_list | origin_dict | origin_tuple | origin_set
| origin_other (name : string).          (* Literal, Annotated, frozenset, ... *)

(** A field annotation, or a key of the custom mapping ([Dict[Any, str]]).
    As a key, an object is what [issubclass(cls, key)] answers on it. *)
Inductive annotation : Type :=
| Class (c : pyclass)
    (* a class whose subclass test is the default one, through the bases:
       isinstance(_, type), get_origin is None *)
| Generic (o : origin) (instance_of_type : bool)
    (* a subscripted generic such as list[str] or Dict[str, int], which
       issubclass refuses on either side; a union is a [ClassInfo];
       [instance_of_type] is isinstance(_, type), which some interpreter
       versions answer True for list[str] *)
| Special (name : string)
    (* an object that is no class and that issubclass refuses: a TypeVar,
       a forward reference (a string) *)
| Abstract (c : pyclass) (accepts : pyclass -> bool)
    (* the class [c] when its metaclass overrides __subclasscheck__: an
       abstract base class such as numbers.Number, with the classes
       registered with it and its __subclasshook__; [accepts cls] is what
       issubclass(cls, _) answers *)
| ClassInfo (name : string) (accepts : pyclass -> option bool).
    (* an object that is no class but that issubclass takes for its second
       argument: a tuple of classes, a union such as Optional[int] or
       int | str; [accepts cls] is what issubclass(cls, _) answers, [None]
       for a TypeError (a tuple with a member that is no class, reached
       before a match) *)

(** The class an annotation is, if it is one. *)
Definition class_of (a : annotation) : option pyclass :=
  match a with
  | Class c | Abstract c _ => Some c
  | _ => None
  end.

Definition isinstance_type (a : annotation) : bool :=
  match a with
  | Class _ | Abstract _ _ => true
  | Generic _ t => t
  | Special _ | ClassInfo _ _ => false
  end.

Definition get_origin (a : annotation) : option origin :=
  match a with
  | Generic o _ => Some o
  | _ => None
  end.

Definition not_a_class_info : exn :=
  mk_exn TypeError "issubclass() arg 2 must be a class, a tuple of classes, or a union".

(** [issubclass(cls, classinfo)]: the first argument has to be a class; the
    second is a class, tested through the bases of [cls] or through its own
    hook, or a tuple or union with its own answer; anything else is a
    [TypeError].  Hooks that raise another exception are not modelled. *)
Definition issubclass (cls classinfo : annotation) : outcome bool :=
  match class_of cls with
  | Some c =>
      match classinfo with
      | Class k => Return (is_subclass c k)
      | Abstract _ accepts => Return (accepts c)
      | ClassInfo _ accepts =>
          match accepts c with
          | Some answer => Return answer
          | None => Raise not_a_class_info
          end
      | Generic _ _ | Special _ => Raise not_a_class_info
      end
  | None => Raise (mk_exn TypeError "issubclass() arg 1 must be a class")
  end.

(** ** TypeMapper: [get_snowflake_type] (source lines 18-52) *)

Definition type_mapping : Type := list (annotation * string).

(** The loop of lines 25-30; [None] when it ends without returning. *)
Fixpoint custom_lookup (py_type : annotation) (items : type_mapping)
  : outcome (option string) :=
  match items with
  | [] => Return None
  | (key, sql_type) :: rest =>
      returned <- try_pure
                    (matched <- (if isinstance_type py_type
                                 then issubclass py_type key
                                 else Return false) ;;
                     Return (if (matched : bool) then Some sql_type else None))
                    [(is_TypeError, fun _ => Return None)] ;;   (* continue *)
      match returned with
      | Some sql_type => Return (Some sql_type)
      | None => custom_lookup py_type rest
      end
  end.

Definition origin_in_containers (o : option origin) : bool :=
  match o with
  | Some origin_list | Some origin_dict | Some origin_tuple | Some origin_set => true
  | _ => false
  end.

(** The chain of lines 35-49; [None] when no test returns. *)
Definition builtin_lookup (py_type : annotation) : outcome (option string) :=
  if isinstance_type py_type then
    b <- issubclass py_type (Class (Builtin c_bool)) ;;
    if (b : bool) then Return (Some "BOOLEAN") else
    b <- issubclass py_type (Class (Builtin c_int)) ;;
    if (b : bool) then Return (Some "NUMBER") else
    b <- issubclass py_type (Class (Builtin c_float)) ;;
    if (b : bool) then Return (Some "FLOAT") else
    b <- issubclass py_type (Class (Builtin c_str)) ;;
    if (b : bool) then Return (Some "VARCHAR") else
    b <- issubclass py_type (Class (Builtin c_datetime)) ;;
    if (b : bool) then Return (Some "TIMESTAMP_NTZ") else
    b <- issubclass py_type (Class (Builtin c_date)) ;;
    if (b : bool) then Return (Some "DATE") else
    b <- issubclass py_type (Class (Builtin c_BaseModel)) ;;
    if (b : bool) then Return (Some "VARIANT") else
    Return None
  else Return None.

(** [if custom_mapping:] is false for [None] and for the empty dict. *)
Definition truthy {A : Type} (d : option (list A)) : bool :=
  match d with
  | Some (_ :: _) => true
  | _ => false
  end.

Definition dict_items {A : Type} (d : option (list A)) : list A :=
  match d with
  | Some l => l
  | None => []
  end.

Definition get_snowflake_type (py_type : annotation)
  (custom_mapping : option type_mapping) : outcome string :=
  hit <- (if truthy custom_mapping
          then custom_lookup py_type (dict_items custom_mapping)
          else Return None) ;;
  match hit with
  | Some sql_type => Return sql_type
  | None =>
      if origin_in_containers (get_origin py_type) then Return "VARIANT"
      else
        hit <- try_pure (builtin_lookup py_type)
                 [(is_Exception, fun _ => Return None)] ;;
        match hit with
        | Some sql_type => Return sql_type
        | None => Return "VARIANT"
        end
  end.

(** ** ValueNormalizer: [_make_json_serializable] and [convert_value]
       (source lines 54-99) *)

(** Which optional packages the interpreter can import. *)
Record environment : Type := {
  numpy_installed : bool;
  pandas_installed : bool;
  snowflake_connector_installed : bool;   (* snowflake.connector.connection *)
  pandas_tools_installed : bool           (* snowflake.connector.pandas_tools *)
}.

(** [import name]: a [ModuleNotFoundError], which is an [ImportError], when
    the package is missing.  [name] is the component of the dotted path the
    interpreter does not find, which its message names: the whole path when
    only the last module is missing, [snowflake] when the distribution is
    not installed at all.  Only the class of the exception is used below. *)
Definition import_module (installed : bool) (name : string) : outcome unit :=
  if installed then Return tt
  else Raise (mk_exn ModuleNotFoundError ("No module named '" ++ name ++ "'")).

(** [d[key] = value] on a dict with text keys: an existing key keeps its
    place and takes the new value, a new key goes last. *)
Fixpoint dict_setitem {V : Type} (d : list (string * V)) (key : string) (value : V)
  : list (string * V) :=
  match d with
  | [] => [(key, value)]
  | (k, v) :: rest =>
      if String.eqb k key then (k, value) :: rest
      else (k, v) :: dict_setitem rest key value
  end.

(** The comprehension [[f(x) for x in xs]] and the append loop, for an [f]
    that may raise. *)
Fixpoint map_outcome {A B : Type} (f : A -> outcome B) (xs : list A)
  : outcome (list B) :=
  match xs with
  | [] => Return []
  | x :: rest =>
      y <- f x ;;
      ys <- map_outcome f rest ;;
      Return (y :: ys)
  end.

Section Normalizer.

Variable env : environment.
(** Python's [str()], pydantic's [model_dump()] and [model_dump_json()], and
    [json.dumps]: given, not defined here. *)
Variable py_str : pyval -> string.
Variable model_dump : string -> list (string * pyval) -> pyval.
Variable model_dump_json : string -> list (string * pyval) -> outcome string.
Variable json_dumps : pyval -> outcome string.

(** Line 89: [k if isinstance(k, str) else str(k)]. *)
Definition new_key (k : pyval) : string :=
  match k with
  | PStr s => s
  | _ => py_str k
  end.

(** Lines 78-83 come first: with numpy importable a numpy scalar is replaced
    by [val.item()]; the import is guarded by [except ImportError], so
    without numpy the test is skipped. *)
Fixpoint _make_json_serializable (val : pyval) : pyval :=
  match val with
  | PNumpy item => if numpy_installed env then item else val
  | PDict entries =>
      let new_dict :=
        fold_left
          (fun new_dict kv =>
             dict_setitem new_dict (new_key (fst kv))
               (_make_json_serializable (snd kv)))
          entries [] in
      PDict (map (fun kv => (PStr (fst kv), snd kv)) new_dict)
  | PList items => PList (map _make_json_serializable items)
  | PTuple items => PList (map _make_json_serializable items)
  | PModel cls fields => model_dump cls fields
  | _ => val
  end.

(** Line 63 calls [val.items()] on a tuple, which a tuple does not have.
    [PTuple] is the built-in tuple and the named tuples, none of which
    defines [items]; a subclass of tuple that defines [items()] would go
    through [json.dumps] at line 63 and is not a value of this model. *)
Definition convert_value (val : pyval) : outcome pyval :=
  match val with
  | PModel cls fields =>
      s <- model_dump_json cls fields ;;
      Return (PStr s)
  | PTuple _ =>
      Raise (mk_exn AttributeError "'tuple' object has no attribute 'items'")
  | PList _ | PDict _ | PSet _ =>
      let safe_val := _make_json_serializable val in
      s <- json_dumps safe_val ;;
      Return (PStr s)
  | _ => Return val
  end.

End Normalizer.

(** The [NormalizedValue] invariant of the data model: no tuple, no set, no
    record instance and no non-text key at any depth. *)
Definition is_str (v : pyval) : bool :=
  match v with
  | PStr _ => true
  | _ => false
  end.

Fixpoint json_clean (v : pyval) : bool :=
  match v with
  | PList items => forallb json_clean items
  | PDict entries =>
      forallb (fun kv => is_str (fst kv) && json_clean (snd kv)) entries
  | PTuple _ | PSet _ | PModel _ _ => false
  | PForeign _ clean => clean
  | _ => true
  end.

(** Values built from primitive scalars, lists, tuples and dicts (the keys
    of a dict may be anything hashable). *)
Fixpoint plain (v : pyval) : bool :=
  match v with
  | PNone | PBool _ | PInt _ | PFloat _ | PStr _ => true
  | PList items | PTuple items => forallb plain items
  | PDict entries => forallb (fun kv => plain (snd kv)) entries
  | PSet _ | PModel _ _ | PNumpy _ | PObject _ | PForeign _ _ => false
  end.

(** Values in which, outside dict keys, no set occurs, and in which what
    the normalizer hands back without a further pass already satisfies the
    invariant: the [model_dump()] of every record instance, the [item()]
    of every numpy scalar, and every other object that holds values. *)
Fixpoint normalizable (model_dump : string -> list (string * pyval) -> pyval)
  (v : pyval) : bool :=
  match v with
  | PList items | PTuple items => forallb (normalizable model_dump) items
  | PDict entries => forallb (fun kv => normalizable model_dump (snd kv)) entries
  | PSet _ => false
  | PModel cls fields => json_clean (model_dump cls fields)
  | PNumpy item => json_clean item
  | PForeign _ clean => clean
  | _ => true
  end.

(** ** The warehouse connection and the trace of calls *)

(** A catalog cell: text, or SQL NULL (Python [None]). *)
Inductive cell : Type :=
| CellStr (s : string)
| CellNone.

(** The tabular buffer [to_dataframe] builds: its labels, and the rows of
    converted cells handed to pandas (pandas' own typing of a column, which
    may recast its cells, is not modelled). *)
Record dataframe : Type := {
  df_columns : list string;
  df_rows : list (list pyval)
}.

(** The calls the class makes on its collaborators. *)
Inductive call : Type :=
| CallCursor                                              (* connection.cursor() *)
| CallExecute (sql : string)                              (* cur.execute(sql) *)
| CallFetchall                                            (* cur.fetchall() *)
| CallClose                                               (* cur.close() *)
| CallExecutemany (sql : string) (records : list (list pyval))
| CallCommit                                              (* connection.commit() *)
| CallConnExecute (sql : string)                          (* connection.execute(sql) *)
| CallToSql (df : dataframe) (name schema : string)       (* df.to_sql(...) *)
| CallWritePandas (df : dataframe) (table database schema : string).

(** A connection is what its methods answer: [None] for a call that
    succeeds, [Some e] for one that raises [e]. *)
Record Connection : Type := {
  has_dialect : bool;                       (* hasattr(connection, "dialect") *)
  cursor : option exn;
  cur_execute : string -> option exn;
  cur_fetchall : string -> outcome (list (list cell));   (* by the query run *)
  cur_close : option exn;
  cur_executemany : string -> list (list pyval) -> option exn;
  commit : option exn;
  conn_execute : string -> option exn;
  to_sql : dataframe -> option exn;
  write_pandas : dataframe -> outcome bool  (* the [success] component *)
}.

(** An action runs against the trace of calls made so far, and ends with a
    value or an exception; the calls made before an exception stay made. *)
Definition action (A : Type) : Type := list call -> outcome A * list call.

#[global] Instance Monad_action : Monad action :=
  {| ret := fun _ a t => (Return a, t);
     bind := fun _ _ c k t =>
               match c t with
               | (Return a, t') => k a t'
               | (Raise e, t') => (Raise e, t')
               end |}.

Definition lift {A : Type} (o : outcome A) : action A := fun t => (o, t).

Definition raise {A : Type} (e : exn) : action A := fun t => (Raise e, t).

Definition invoke_for {A : Type} (c : call) (reply : outcome A) : action A :=
  fun t => (reply, (t ++ [c])%list).

Definition invoke (c : call) (reply : option exn) : action unit :=
  invoke_for c (match reply with
                | None => Return tt
                | Some e => Raise e
                end).

(** [try: body except <clauses>] for actions.  Control leaves the statement
    when a clause raises: the sibling clauses are not consulted. *)
Definition try_except {A : Type} (body : action A)
  (clauses : list ((exn -> bool) * (exn -> action A))) : action A :=
  fun t =>
    match body t with
    | (Return a, t') => (Return a, t')
    | (Raise e, t') =>
        match select_clause clauses e with
        | Some handler => handler e t'
        | None => (Raise e, t')
        end
    end.

(** ** TableWriter and SchemaComparator (source lines 6-16, 101-238) *)

Record model_class : Type := {
  model_name : string;
  model_fields : list (string * annotation)   (* in declaration order *)
}.

(** A record instance, as the values of its attributes. *)
Definition instance : Type := list (string * pyval).

Record PydanticToSnowflake : Type := {
  connection : Connection;
  database : string;
  schema : string;
  table : string;
  custom_type_mapping : type_mapping
}.

(** [__init__], lines 12-16: [custom_type_mapping or {}]. *)
Definition init (conn : Connection) (db sch tbl : string)
  (custom : option type_mapping) : PydanticToSnowflake :=
  {| connection := conn; database := db; schema := sch; table := tbl;
     custom_type_mapping := if truthy custom then dict_items custom else [] |}.

Definition newline : string := String (ascii_of_nat 10) EmptyString.
Definition dquote : string := String (ascii_of_nat 34) EmptyString.

(** Lines 132-140. *)
Definition get_create_table_sql (self : PydanticToSnowflake) (mc : model_class)
  : outcome string :=
  columns <- map_outcome
               (fun field =>
                  sql_type <- get_snowflake_type (snd field)
                                (Some (custom_type_mapping self)) ;;
                  Return (upper (fst field) ++ " " ++ sql_type))
               (model_fields mc) ;;
  let columns_def := join ", " columns in
  Return ("CREATE OR REPLACE TABLE " ++ database self ++ "." ++ schema self
          ++ "." ++ table self ++ " (" ++ columns_def ++ ")").

(** The catalog query of lines 151-157, with its layout. *)
Definition catalog_query (self : PydanticToSnowflake) : string :=
  let indent := "            " in
  newline
  ++ indent ++ "SELECT COLUMN_NAME, DATA_TYPE " ++ newline
  ++ indent ++ "FROM " ++ database self ++ ".INFORMATION_SCHEMA.COLUMNS" ++ newline
  ++ indent ++ "WHERE TABLE_SCHEMA = '" ++ upper (schema self) ++ "' " ++ newline
  ++ indent ++ "  AND TABLE_NAME = '" ++ upper (table self) ++ "'" ++ newline
  ++ indent ++ "ORDER BY ORDINAL_POSITION;" ++ newline
  ++ indent.

(** [x.upper()] on a catalog cell. *)
Definition cell_upper (c : cell) : outcome string :=
  match c with
  | CellStr s => Return (upper s)
  | CellNone =>
      Raise (mk_exn AttributeError "'NoneType' object has no attribute 'upper'")
  end.

(** Lines 164-167. *)
Definition expected_columns (self : PydanticToSnowflake) (mc : model_class)
  : outcome (list (string * string)) :=
  map_outcome
    (fun field =>
       sql_type <- get_snowflake_type (snd field)
                     (Some (custom_type_mapping self)) ;;
       Return (upper (fst field), upper sql_type))
    (model_fields mc).

(** The loop of lines 170-175 over [zip(expected, rows)]; the target
    [(act_col, act_type, *_)] needs a row of at least two cells. *)
Fixpoint compare_columns (pairs : list ((string * string) * list cell))
  : outcome bool :=
  match pairs with
  | [] => Return true
  | ((exp_col, exp_type), row) :: rest =>
      match row with
      | act_col :: act_type :: _ =>
          name <- cell_upper act_col ;;
          if negb (String.eqb exp_col name) then Return false else
          declared <- cell_upper act_type ;;
          if negb (str_in exp_type declared) then Return false else
          compare_columns rest
      | _ => Raise (mk_exn ValueError "not enough values to unpack (expected at least 2)")
      end
  end.

(** Lines 143-177. *)
Definition check_table_schema_body (self : PydanticToSnowflake) (mc : model_class)
  : action bool :=
  let conn := connection self in
  invoke CallCursor (cursor conn) ;;
  let query := catalog_query self in
  invoke (CallExecute query) (cur_execute conn query) ;;
  rows <- invoke_for CallFetchall (cur_fetchall conn query) ;;
  invoke CallClose (cur_close conn) ;;
  match rows with
  | [] => ret false
  | _ =>
      expected <- lift (expected_columns self mc) ;;
      if negb (List.length expected =? List.length rows)%nat then ret false
      else lift (compare_columns (combine expected rows))
  end.

Definition check_table_schema (self : PydanticToSnowflake) (mc : model_class)
  : action bool :=
  try_except (check_table_schema_body self mc)
    [(is_Exception, fun _ => ret false)].

(** Lines 117-130. *)
Definition create_table (env : environment) (self : PydanticToSnowflake)
  (mc : model_class) : action unit :=
  lift (import_module (snowflake_connector_installed env)
          "snowflake.connector.connection") ;;
  create_table_sql <- lift (get_create_table_sql self mc) ;;
  let conn := connection self in
  try_except
    (invoke CallCursor (cursor conn) ;;
     invoke (CallExecute create_table_sql) (cur_execute conn create_table_sql))
    [(is_Exception, fun e =>
        try_except
          (invoke (CallConnExecute create_table_sql)
             (conn_execute conn create_table_sql))
          [(is_Exception, fun e2 =>
              raise (mk_exn RuntimeError
                       ("Table creation failed: " ++ exn_message e
                        ++ "; fallback also failed: " ++ exn_message e2)))])].

(** The statement of lines 202-203 ([quoted] false) and of lines 212-213
    ([quoted] true). *)
Definition insert_statement (self : PydanticToSnowflake) (col_names : list string)
  (quoted : bool) : string :=
  let placeholders := join ", " (repeat "%s" (List.length col_names)) in
  "INSERT INTO " ++ schema self ++ "." ++ table self ++ " ("
  ++ join ", " (map (fun col => if quoted
                                then dquote ++ upper col ++ dquote
                                else upper col) col_names)
  ++ ") VALUES (" ++ placeholders ++ ")".

Section Writer.

Variable env : environment.
Variable py_str : pyval -> string.
Variable model_dump : string -> list (string * pyval) -> pyval.
Variable model_dump_json : string -> list (string * pyval) -> outcome string.
Variable json_dumps : pyval -> outcome string.

(** [getattr(item, col)] *)
Definition getattr (item : instance) (col : string) : outcome pyval :=
  match find (fun kv => String.eqb (fst kv) col) item with
  | Some kv => Return (snd kv)
  | None =>
      Raise (mk_exn AttributeError ("object has no attribute '" ++ col ++ "'"))
  end.

(** One converted row per item: the comprehensions of lines 109-112, 204
    and 214. *)
Definition convert_rows (col_names : list string) (data : list instance)
  : outcome (list (list pyval)) :=
  map_outcome
    (fun item =>
       map_outcome
         (fun col =>
            v <- getattr item col ;;
            convert_value env py_str model_dump model_dump_json json_dumps v)
         col_names)
    data.

(** What [df.columns.str] raises on the labels of a frame built from an
    empty list, which pandas 2 makes a range of integers and not text. *)
Definition no_str_accessor : exn :=
  mk_exn AttributeError "Can only use .str accessor with string values!".

(** Lines 101-115.  A frame built from a list of dicts takes its labels
    from their keys; a frame built from an empty list has no text labels,
    and line 114 raises on it (pandas 2; the wording of the message varies
    with the release, its class does not). *)
Definition to_dataframe (mc : model_class) (data : list instance)
  (cols_to_uppecase : bool) : outcome dataframe :=
  import_module (pandas_installed env) "pandas" ;;
  let col_names := map fst (model_fields mc) in
  rows <- convert_rows col_names data ;;
  match data with
  | [] =>
      if cols_to_uppecase then Raise no_str_accessor
      else Return {| df_columns := []; df_rows := rows |}
  | _ :: _ =>
      Return {| df_columns := if cols_to_uppecase
                              then map upper col_names else col_names;
                df_rows := rows |}
  end.

(** Lines 201-208, and again lines 211-218 with every column name between
    double quotes. *)
Definition executemany_insert (self : PydanticToSnowflake) (mc : model_class)
  (data : list instance) (quoted : bool) : action unit :=
  let conn := connection self in
  let col_names := map fst (model_fields mc) in
  let insert_stmt := insert_statement self col_names quoted in
  records <- lift (convert_rows col_names data) ;;
  invoke CallCursor (cursor conn) ;;
  invoke (CallExecutemany insert_stmt records)
    (cur_executemany conn insert_stmt records) ;;
  invoke CallCommit (commit conn) ;;
  invoke CallClose (cur_close conn).

(** Lines 179-220. *)
Definition insert_data (self : PydanticToSnowflake) (mc : model_class)
  (data : list instance) : action unit :=
  let conn := connection self in
  lift (import_module (pandas_installed env) "pandas") ;;
  df <- lift (to_dataframe mc data true) ;;
  if has_dialect conn then
    try_except
      (invoke (CallToSql df (table self) (schema self)) (to_sql conn df))
      [(is_Exception, fun e =>
          raise (mk_exn RuntimeError
                   ("SQLAlchemy insertion failed: " ++ exn_message e)))]
  else
    try_except
      (lift (import_module (pandas_tools_installed env)
               "snowflake.connector.pandas_tools") ;;
       success <- invoke_for
                    (CallWritePandas df (table self) (database self) (schema self))
                    (write_pandas conn df) ;;
       if negb success
       then raise (mk_exn RuntimeError "write_pandas failed to insert data.")
       else ret tt)
      [(is_ImportError, fun _ => executemany_insert self mc data false);
       (is_Exception, fun e =>
          try_except (executemany_insert self mc data true)
            [(is_Exception, fun e2 =>
                raise (mk_exn RuntimeError
                         ("Data insertion failed: " ++ exn_message e
                          ++ "; fallback also failed: " ++ exn_message e2)))])].

(** Lines 222-238. *)
Definition create_table_and_insert (self : PydanticToSnowflake)
  (mc : model_class) (data : list instance)
  (skip_table_creation_if_valid : bool) : action unit :=
  (if skip_table_creation_if_valid then
     valid <- check_table_schema self mc ;;
     if negb valid then create_table env self mc else ret tt
   else create_table env self mc) ;;
  insert_data self mc data.

End Writer.

(** ** A reference interpreter

    Concrete stand-ins for what the sections above take as given, used to
    run the definitions on worked examples.  [py_repr] is exact on [None],
    booleans, integers, containers, and on text without quotes, backslashes
    or control characters; [reference_model_dump] is pydantic's dump in
    Python mode: field names to values, nested records dumped in turn,
    containers keeping their kind. *)

Module Reference.

Definition decimal (n : Z) : string :=
  NilEmpty.string_of_int (Z.to_int n).

Fixpoint py_repr (v : pyval) : string :=
  match v with
  | PNone => "None"
  | PBool true => "True"
  | PBool false => "False"
  | PInt n => decimal n
  | PFloat r => r
  | PStr s => "'" ++ s ++ "'"
  | PList items => "[" ++ join ", " (map py_repr items) ++ "]"
  | PTuple [x] => "(" ++ py_repr x ++ ",)"
  | PTuple items => "(" ++ join ", " (map py_repr items) ++ ")"
  | PSet [] => "set()"
  | PSet items => "{" ++ join ", " (map py_repr items) ++ "}"
  | PDict entries =>
      "{" ++ join ", " (map (fun kv => py_repr (fst kv) ++ ": " ++ py_repr (snd kv))
                          entries) ++ "}"
  | PModel cls fields =>
      cls ++ "(" ++ join ", " (map (fun kv => fst kv ++ "=" ++ py_repr (snd kv))
                                 fields) ++ ")"
  | PNumpy item => py_repr item
  | PObject d => d
  | PForeign d _ => d
  end.

Definition py_str (v : pyval) : string :=
  match v with
  | PStr s => s
  | PModel _ fields =>
      join " " (map (fun kv => fst kv ++ "=" ++ py_repr (snd kv)) fields)
  | _ => py_repr v
  end.

Fixpoint dump_value (v : pyval) : pyval :=
  match v with
  | PList items => PList (map dump_value items)
  | PTuple items => PTuple (map dump_value items)
  | PSet items => PSet (map dump_value items)
  | PDict entries =>
      PDict (map (fun kv => (dump_value (fst kv), dump_value (snd kv))) entries)
  | PModel _ fields =>
      PDict (map (fun kv => (PStr (fst kv), dump_value (snd kv))) fields)
  | _ => v
  end.

Definition model_dump (cls : string) (fields : list (string * pyval)) : pyval :=
  dump_value (PModel cls fields).

Definition not_serializable (kind : string) : exn :=
  mk_exn TypeError ("Object of type " ++ kind ++ " is not JSON serializable").

(** A JSON key: text as it is, [None], booleans and numbers in their JSON
    spelling, anything else refused. *)
Definition json_key (k : pyval) : outcome string :=
  match k with
  | PStr s => Return s
  | PNone => Return "null"
  | PBool true => Return "true"
  | PBool false => Return "false"
  | PInt n => Return (decimal n)
  | PFloat r => Return r
  | _ => Raise (mk_exn TypeError
                  "keys must be str, int, float, bool or None")
  end.

(** The JSON text of a value, with the given separators; exact on finite
    floats and on text without quotes, backslashes, control or non-ASCII
    characters. *)
Fixpoint json_encode (item_sep key_sep : string) (v : pyval) : outcome string :=
  match v with
  | PNone => Return "null"
  | PBool true => Return "true"
  | PBool false => Return "false"
  | PInt n => Return (decimal n)
  | PFloat r => Return r
  | PStr s => Return (dquote ++ s ++ dquote)
  | PList items | PTuple items =>
      parts <- map_outcome (json_encode item_sep key_sep) items ;;
      Return ("[" ++ join item_sep parts ++ "]")
  | PDict entries =>
      parts <- map_outcome
                 (fun kv =>
                    k <- json_key (fst kv) ;;
                    x <- json_encode item_sep key_sep (snd kv) ;;
                    Return (dquote ++ k ++ dquote ++ key_sep ++ x))
                 entries ;;
      Return ("{" ++ join item_sep parts ++ "}")
  | PSet _ => Raise (not_serializable "set")
  | PModel cls _ => Raise (not_serializable cls)
  | PNumpy _ => Raise (not_serializable "generic")
  | PObject d => Raise (not_serializable d)
  | PForeign d _ => Raise (not_serializable d)
  end.

(** [json.dumps] with its default separators. *)
Definition json_dumps (v : pyval) : outcome string :=
  json_encode ", " ": " v.

(** pydantic's compact JSON of the dumped fields. *)
Definition model_dump_json (cls : string) (fields : list (string * pyval))
  : outcome string :=
  json_encode "," ":" (model_dump cls fields).

(** An interpreter with numpy and pandas but without the Snowflake
    connector and its pandas helper. *)
Definition no_connector : environment :=
  {| numpy_installed := true;
     pandas_installed := true;
     snowflake_connector_installed := false;
     pandas_tools_installed := false |}.

(** An interpreter with every optional package. *)
Definition full_install : environment :=
  {| numpy_installed := true;
     pandas_installed := true;
     snowflake_connector_installed := true;
     pandas_tools_installed := true |}.

End Reference.

(** ** What the specification says, in its words *)

(** Section 4.4: [CREATE OR REPLACE TABLE <db>.<schema>.<table> (<COL1>
    <TYPE1>, <COL2> <TYPE2>, ...)] for a list of column descriptors. *)
Definition create_table_statement (db sch tbl : string)
  (descriptors : list (string * string)) : string :=
  "CREATE OR REPLACE TABLE " ++ db ++ "." ++ sch ++ "." ++ tbl ++ " ("
  ++ join ", " (map (fun d => fst d ++ " " ++ snd d) descriptors) ++ ")".

(** Section 4.3, step 3: a position is accepted when the names are equal
    once uppercased and the expected type, uppercased, occurs in the live
    declared type, uppercased. *)
Definition position_accepted (self : PydanticToSnowflake)
  (field : string * annotation) (row : list cell) : Prop :=
  exists (act_col act_type sql_type : string) (others : list cell),
    row = CellStr act_col :: CellStr act_type :: others
    /\ get_snowflake_type (snd field) (Some (custom_type_mapping self))
       = Return sql_type
    /\ upper (fst field) = upper act_col
    /\ str_in (upper sql_type) (upper act_type) = true.

(** The calls of a catalog retrieval that goes through. *)
Definition catalog_calls (self : PydanticToSnowflake) : list call :=
  [CallCursor; CallExecute (catalog_query self); CallFetchall; CallClose].

(** ** Connections and schemas of the worked examples *)

Module Scenario.

(** [NoneType], the class of [None]. *)
Definition NoneType : pyclass := UserClass "NoneType" [].

(** The key or annotation [Optional[k]], that is [Union[k, None]]. *)
Definition optional (k : pyclass) : annotation :=
  ClassInfo "Optional"
    (fun cls => Some (is_subclass cls k || is_subclass cls NoneType)).

(** A tuple of classes used as a key: [(k1, k2, ...)]. *)
Definition class_tuple (members : list pyclass) : annotation :=
  ClassInfo "tuple" (fun cls => Some (existsb (is_subclass cls) members)).

(** [numbers.Number], with the built-in numeric classes registered. *)
Definition Number : annotation :=
  Abstract (UserClass "Number" [])
    (fun cls => is_subclass cls (UserClass "Number" [])
                || is_subclass cls (Builtin c_int)
                || is_subclass cls (Builtin c_float)).

(** [class MyEnum(str)]: a user class that subclasses [str]. *)
Definition MyEnum : pyclass := UserClass "MyEnum" [Builtin c_str].

(** A native (cursor-style) connection: no [dialect], no [execute] of its
    own; the cursor answers as given. *)
Definition native_connection
  (execute : string -> option exn)
  (fetchall : outcome (list (list cell)))
  (executemany : string -> option exn) : Connection :=
  {| has_dialect := false;
     cursor := None;
     cur_execute := execute;
     cur_fetchall := fun _ => fetchall;
     cur_close := None;
     cur_executemany := fun sql _ => executemany sql;
     commit := None;
     conn_execute := fun _ =>
       Some (mk_exn AttributeError "'SnowflakeConnection' object has no attribute 'execute'");
     to_sql := fun _ => None;
     write_pandas := fun _ => Return true |}.

(** [{id: int, name: str, tags: list[str]}] *)
Definition Item : model_class :=
  {| model_name := "Item";
     model_fields := [("id", Class (Builtin c_int));
                      ("name", Class (Builtin c_str));
                      ("tags", Generic origin_list false)] |}.

(** The live table of [Item], as the catalog decorates its types. *)
Definition live_item_columns : list (list cell) :=
  [[CellStr "ID"; CellStr "NUMBER(38,0)"];
   [CellStr "NAME"; CellStr "VARCHAR(16777216)"];
   [CellStr "TAGS"; CellStr "VARIANT"]].

(** The same target with the custom mapping [{str: "TEXT"}]. *)
Definition text_table : PydanticToSnowflake :=
  init (native_connection (fun _ => None) (Return []) (fun _ => None))
    "D" "S" "T" (Some [(Class (Builtin c_str), "TEXT")]).

Definition live_table : PydanticToSnowflake :=
  init (native_connection (fun _ => None) (Return live_item_columns) (fun _ => None))
    "D" "S" "T" None.

(** The catalog query fails: the table does not exist. *)
Definition does_not_exist : exn :=
  mk_exn (OtherException "ProgrammingError")
    "Object 'D.S.T' does not exist or not authorized.".

Definition missing_table : PydanticToSnowflake :=
  init (native_connection (fun _ => Some does_not_exist) (Return []) (fun _ => None))
    "D" "S" "T" None.

(** A table with a reserved word for a column name: the warehouse refuses
    the statement that names the column bare and takes the one that quotes
    it. *)
Definition Order : model_class :=
  {| model_name := "Order";
     model_fields := [("order", Class (Builtin c_int))] |}.

Definition syntax_error : exn :=
  mk_exn (OtherException "ProgrammingError")
    "SQL compilation error: syntax error unexpected 'ORDER'.".

Definition reserved_word_table : PydanticToSnowflake :=
  init (native_connection (fun _ => None) (Return [])
          (fun sql => if str_in dquote sql then None else Some syntax_error))
    "D" "S" "T" None.

Definition one_order : list instance := [[("order", PInt 1)]].

(** A connection on which the bulk helper runs and reports failure; the
    row-by-row insert answers as given. *)
Definition refused : exn :=
  mk_exn (OtherException "ProgrammingError") "insufficient privileges".

Definition failing_helper (executemany : option exn) : PydanticToSnowflake :=
  init {| has_dialect := false;
          cursor := None;
          cur_execute := fun _ => None;
          cur_fetchall := fun _ => Return [];
          cur_close := None;
          cur_executemany := fun _ _ => executemany;
          commit := None;
          conn_execute := fun _ => None;
          to_sql := fun _ => None;
          write_pandas := fun _ => Return false |}
    "D" "S" "T" None.

(** An SQLAlchemy-style connection: it has [dialect] and [execute], and no
    [cursor]; [to_sql] answers as given. *)
Definition no_cursor : exn :=
  mk_exn AttributeError "'Engine' object has no attribute 'cursor'".

Definition sqlalchemy_engine (append : option exn) : PydanticToSnowflake :=
  init {| has_dialect := true;
          cursor := Some no_cursor;
          cur_execute := fun _ => None;
          cur_fetchall := fun _ => Return [];
          cur_close := None;
          cur_executemany := fun _ _ => None;
          commit := None;
          conn_execute := fun _ => None;
          to_sql := fun _ => append;
          write_pandas := fun _ => Return true |}
    "D" "S" "T" None.

(** A warehouse that does not have the table yet: the catalog query raises,
    every other statement goes through. *)
Definition fresh_warehouse : PydanticToSnowflake :=
  init (native_connection
          (fun sql => if str_in "INFORMATION_SCHEMA" sql
                      then Some does_not_exist else None)
          (Return []) (fun _ => None))
    "D" "S" "T" None.

(** A connection on which the bulk helper raises [e]. *)
Definition raising_helper (e : exn) (executemany : option exn)
  : PydanticToSnowflake :=
  init {| has_dialect := false;
          cursor := None;
          cur_execute := fun _ => None;
          cur_fetchall := fun _ => Return [];
          cur_close := None;
          cur_executemany := fun _ _ => executemany;
          commit := None;
          conn_execute := fun _ => None;
          to_sql := fun _ => None;
          write_pandas := fun _ => Raise e |}
    "D" "S" "T" None.

(** A record of [Order] whose field holds a tuple. *)
Definition tuple_order : list instance := [[("order", PTuple [PInt 1; PInt 2])]].

Definition one_order_frame : dataframe :=
  {| df_columns := ["ORDER"]; df_rows := [[PInt 1]] |}.

End Scenario.

(** ** Vocabulary of the further properties *)

(** An entry of the custom mapping matches when line 27 holds for it. *)
Definition entry_matches (py_type : annotation) (entry : annotation * string) : bool :=
  match issubclass py_type (fst entry) with
  | Return true => true
  | _ => false
  end.

(** The column types lines 33-52 can return. *)
Definition builtin_sql_types : list string :=
  ["BOOLEAN"; "NUMBER"; "FLOAT"; "VARCHAR"; "TIMESTAMP_NTZ"; "DATE"; "VARIANT"].

Definition is_class (a : annotation) : bool :=
  match class_of a with
  | Some _ => true
  | None => false
  end.

(** A key of the custom mapping that is a built-in class with the default
    subclass test, or an object [issubclass] refuses; not a user class, an
    abstract class, a tuple or a union. *)
Definition builtin_key (entry : annotation * string) : bool :=
  match fst entry with
  | Class (Builtin _) | Generic _ _ | Special _ => true
  | Class (UserClass _ _) | Abstract _ _ | ClassInfo _ _ => false
  end.

(** [d.get(key)] on a dict with text keys. *)
Fixpoint dict_get {V : Type} (d : list (string * V)) (key : string) : option V :=
  match d with
  | [] => None
  | (k, v) :: rest => if String.eqb k key then Some v else dict_get rest key
  end.

(** The value of the last entry, in iteration order, whose key coerces to
    [key]. *)
Definition last_value (py_str : pyval -> string) (key : string)
  (entries : list (pyval * pyval)) : option pyval :=
  fold_left
    (fun found kv =>
       if String.eqb (new_key py_str (fst kv)) key then Some (snd kv) else found)
    entries None.

Fixpoint distinct (keys : list string) : bool :=
  match keys with
  | [] => true
  | k :: rest => negb (existsb (String.eqb k) rest) && distinct rest
  end.

Definition key_text (k : pyval) : string :=
  match k with
  | PStr s => s
  | _ => EmptyString
  end.

(** What the normalizer leaves as it is: scalars, lists of such values, and
    dicts of such values under pairwise distinct text keys. *)
Fixpoint normal_form (v : pyval) : bool :=
  match v with
  | PNone | PBool _ | PInt _ | PFloat _ | PStr _ | PObject _ | PForeign _ _ => true
  | PList items => forallb normal_form items
  | PDict entries =>
      forallb (fun kv => is_str (fst kv) && normal_form (snd kv)) entries
      && distinct (map (fun kv => key_text (fst kv)) entries)
  | PTuple _ | PSet _ | PModel _ _ | PNumpy _ => false
  end.

Definition ascii_cell (c : cell) : bool :=
  match c with
  | CellStr s => ascii_text s
  | CellNone => true
  end.

(** All the text the schema check uppercases is ASCII: the schema and table
    names, the field names, the column types of the custom mapping and the
    cells the catalog returns. *)
Definition ascii_schema_check (self : PydanticToSnowflake) (mc : model_class)
  : Prop :=
  ascii_text (schema self) = true
  /\ ascii_text (table self) = true
  /\ forallb (fun field => ascii_text (fst field)) (model_fields mc) = true
  /\ forallb (fun entry => ascii_text (snd entry)) (custom_type_mapping self) = true
  /\ (forall rows,
         cur_fetchall (connection self) (catalog_query self) = Return rows ->
         forallb (forallb ascii_cell) rows = true).

(** A value that holds other values. *)
Definition is_container (v : pyval) : bool :=
  match v with
  | PList _ | PTuple _ | PSet _ | PDict _ | PModel _ _ => true
  | _ => false
  end.

(** Every call an action adds to the trace satisfies [allowed], and the
    calls made before it stay in place. *)
Definition makes_only {A : Type} (allowed : call -> bool) (a : action A) : Prop :=
  forall t, exists added,
    snd (a t) = (t ++ added)%list /\ forallb allowed added = true.

(** The calls that move rows: everything but [execute], [fetchall] and
    [connection.execute]. *)
Definition row_call (c : call) : bool :=
  match c with
  | CallExecute _ | CallFetchall | CallConnExecute _ => false
  | _ => true
  end.

(** * Properties *)

(** ** TypeMapper *)

Lemma issubclass_raises_TypeError (cls classinfo : annotation) (e : exn) :
  issubclass cls classinfo = Raise e -> is_TypeError e = true.
Proof.
  unfold issubclass.
  destruct (class_of cls) as [c |]; [| intros H; inversion H; reflexivity].
  destruct classinfo as [k | o t | name | k accepts | name accepts];
    try (intros H; inversion H; reflexivity).
  destruct (accepts c); intros H; inversion H; reflexivity.
Qed.

(** One turn of the loop of lines 25-30: the entry returns its SQL type
    exactly when the subclass test answers True, and otherwise the loop
    goes on, whether the test answered False or raised. *)
Lemma custom_lookup_cons (py_type key : annotation) (sql_type : string)
  (rest : type_mapping) :
  custom_lookup py_type ((key, sql_type) :: rest) =
  match issubclass py_type key with
  | Return true => Return (Some sql_type)
  | _ => custom_lookup py_type rest
  end.
Proof.
  cbn [custom_lookup].
  destruct (issubclass py_type key) as [b | e] eqn:Hsub.
  - assert (Htype : isinstance_type py_type = true).
    { destruct py_type; cbn in Hsub; try discriminate; reflexivity. }
    rewrite Htype. destruct b; reflexivity.
  - destruct (isinstance_type py_type); [| reflexivity].
    cbn. rewrite (issubclass_raises_TypeError _ _ _ Hsub). reflexivity.
Qed.

Lemma custom_lookup_total (py_type : annotation) (items : type_mapping) :
  exists hit, custom_lookup py_type items = Return hit.
Proof.
  induction items as [| [key sql_type] rest IH].
  - exists None. reflexivity.
  - rewrite custom_lookup_cons.
    destruct (issubclass py_type key) as [[|] | e]; eauto.
Qed.

Lemma custom_lookup_no_match (py_type : annotation) (items : type_mapping) :
  (forall key sql_type, In (key, sql_type) items ->
                        issubclass py_type key <> Return true) ->
  custom_lookup py_type items = Return None.
Proof.
  induction items as [| [key sql_type] rest IH]; intros Hno.
  - reflexivity.
  - rewrite custom_lookup_cons.
    assert (Hkey : issubclass py_type key <> Return true)
      by (apply (Hno key sql_type); left; reflexivity).
    destruct (issubclass py_type key) as [[|] | e];
      [congruence | |]; apply IH; intros k t Hin; apply (Hno k t); right; exact Hin.
Qed.

Lemma custom_lookup_first_match (py_type key : annotation) (sql_type : string)
  (before after : type_mapping) :
  (forall k t, In (k, t) before -> issubclass py_type k <> Return true) ->
  issubclass py_type key = Return true ->
  custom_lookup py_type (before ++ (key, sql_type) :: after)%list
  = Return (Some sql_type).
Proof.
  induction before as [| [k t] rest IH]; intros Hno Hkey; cbn [app].
  - rewrite custom_lookup_cons, Hkey. reflexivity.
  - rewrite custom_lookup_cons.
    assert (Hk : issubclass py_type k <> Return true)
      by (apply (Hno k t); left; reflexivity).
    destruct (issubclass py_type k) as [[|] | e];
      [congruence | |]; apply IH; try assumption;
      intros k' t' Hin; apply (Hno k' t'); right; exact Hin.
Qed.

Lemma truthy_app_cons {A : Type} (before after : list A) (x : A) :
  truthy (Some (before ++ x :: after)%list) = true.
Proof. destruct before; reflexivity. Qed.

(** C4: the annotation [bool] maps to BOOLEAN and [int] to NUMBER, with no
    custom mapping or an empty one; [bool] is a subclass of [int], so it is
    the order of the tests that keeps [bool] from NUMBER. *)
Theorem bool_is_BOOLEAN_int_is_NUMBER :
  get_snowflake_type (Class (Builtin c_bool)) None = Return "BOOLEAN"
  /\ get_snowflake_type (Class (Builtin c_bool)) (Some []) = Return "BOOLEAN"
  /\ get_snowflake_type (Class (Builtin c_int)) None = Return "NUMBER"
  /\ get_snowflake_type (Class (Builtin c_int)) (Some []) = Return "NUMBER"
  /\ is_subclass (Builtin c_bool) (Builtin c_int) = true
  /\ get_snowflake_type (Class (Builtin c_bool)) None <> Return "NUMBER".
Proof.
  repeat split; try reflexivity.
  cbv. discriminate.
Qed.

(** C5: with a custom mapping in which [issubclass(annotation, k)] is not
    True for any key [k] before [key], be it a class, an abstract class, a
    tuple, a union or an object the test refuses, and is True for [key],
    the SQL type of the entry of [key] is returned for the annotation
    (a class, since the test answers True for it), whatever the built-in
    chain would have answered. *)
Theorem custom_mapping_first_match_wins
  (py_type key : annotation) (sql_type : string)
  (before after : type_mapping) :
  (forall k t, In (k, t) before -> issubclass py_type k <> Return true) ->
  issubclass py_type key = Return true ->
  get_snowflake_type py_type
    (Some (before ++ (key, sql_type) :: after)%list)
  = Return sql_type.
Proof.
  intros Hbefore Hkey.
  unfold get_snowflake_type.
  rewrite truthy_app_cons. cbn [dict_items].
  rewrite (custom_lookup_first_match py_type key sql_type before after Hbefore Hkey).
  reflexivity.
Qed.

(** C5 at [MyEnum] with [{MyEnum: "VARCHAR"}]. *)
Lemma custom_mapping_MyEnum :
  get_snowflake_type (Class Scenario.MyEnum) (Some [(Class Scenario.MyEnum, "VARCHAR")])
  = Return "VARCHAR".
Proof.
  apply (custom_mapping_first_match_wins (Class Scenario.MyEnum)
           (Class Scenario.MyEnum) "VARCHAR" [] []).
  - intros k t [].
  - reflexivity.
Defined.

(** Keys that are no single class match as [issubclass] has it: a union
    before the class it holds, a tuple of classes, an abstract class with
    registered classes. *)
Example custom_mapping_union_tuple_and_abstract_keys :
  get_snowflake_type (Class (Builtin c_int))
    (Some [(Scenario.optional (Builtin c_int), "NULLABLE_INT");
           (Class (Builtin c_int), "INTEGER")])
  = Return "NULLABLE_INT"
  /\ get_snowflake_type (Class (Builtin c_int))
       (Some [(Scenario.class_tuple [Builtin c_int; Builtin c_float], "NUMERIC")])
     = Return "NUMERIC"
  /\ get_snowflake_type (Class (Builtin c_int)) (Some [(Scenario.Number, "NUMERIC")])
     = Return "NUMERIC"
  /\ get_snowflake_type (Class (UserClass "Decimal" []))
       (Some [(Scenario.optional (UserClass "Decimal" []), "DEC")])
     = Return "DEC".
Proof. repeat split; reflexivity. Qed.

(** The custom entry decides even against the built-in chain, which would
    call a subclass of [str] VARCHAR. *)
Example custom_mapping_overrides_builtin :
  get_snowflake_type (Class Scenario.MyEnum)
    (Some [(Special "'Later'", "OBJECT"); (Class (Builtin c_int), "INTEGER");
           (Class Scenario.MyEnum, "TEXT"); (Class (Builtin c_str), "STRING")])
  = Return "TEXT"
  /\ get_snowflake_type (Class Scenario.MyEnum) None = Return "VARCHAR".
Proof. split; reflexivity. Qed.

Lemma builtin_lookup_caught (py_type : annotation) :
  exists hit,
    try_pure (builtin_lookup py_type) [(is_Exception, fun _ => Return None)]
    = Return hit.
Proof.
  destruct (builtin_lookup py_type) as [hit | e]; cbn; eauto.
Qed.

Lemma get_snowflake_type_total
  (py_type : annotation) (custom_mapping : option type_mapping) :
  exists sql_type, get_snowflake_type py_type custom_mapping = Return sql_type.
Proof.
  unfold get_snowflake_type.
  assert (Hcustom : exists hit,
             (if truthy custom_mapping
              then custom_lookup py_type (dict_items custom_mapping)
              else Return None) = Return hit).
  { destruct (truthy custom_mapping); [apply custom_lookup_total | eauto]. }
  destruct Hcustom as [[t |] ->]; cbn; [eauto |].
  destruct (origin_in_containers (get_origin py_type)); [eauto |].
  destruct (builtin_lookup_caught py_type) as [[t |] ->]; cbn; eauto.
Qed.



(** ** ValueNormalizer *)

(** *** The dict that line 90 fills *)

Section dict_setitem_facts.

Context {V : Type}.

Lemma dict_setitem_fresh (d : list (string * V)) (key : string) (value : V) :
  ~ In key (map fst d) -> dict_setitem d key value = (d ++ [(key, value)])%list.
Proof.
  induction d as [| [k v] rest IH]; intros Hfresh; cbn.
  - reflexivity.
  - destruct (String.eqb_spec k key) as [-> | Hne].
    + exfalso. apply Hfresh. left. reflexivity.
    + rewrite IH; [reflexivity |].
      intros Hin. apply Hfresh. right. exact Hin.
Qed.

Lemma dict_setitem_present (d : list (string * V)) (key : string) (value : V) :
  In key (map fst d) -> map fst (dict_setitem d key value) = map fst d.
Proof.
  induction d as [| [k v] rest IH]; intros Hin; cbn.
  - destruct Hin.
  - destruct (String.eqb_spec k key) as [-> | Hne]; cbn.
    + reflexivity.
    + f_equal. apply IH. destruct Hin as [Heq | Hin]; [contradiction | exact Hin].
Qed.

Lemma dict_setitem_NoDup (d : list (string * V)) (key : string) (value : V) :
  NoDup (map fst d) -> NoDup (map fst (dict_setitem d key value)).
Proof.
  intros Hd.
  destruct (in_dec String.string_dec key (map fst d)) as [Hin | Hfresh].
  - rewrite dict_setitem_present by exact Hin. exact Hd.
  - rewrite dict_setitem_fresh by exact Hfresh.
    rewrite map_app. cbn.
    apply (Permutation.Permutation_NoDup (l := key :: map fst d)).
    + apply Permutation.Permutation_cons_append.
    + constructor; assumption.
Qed.

Lemma dict_setitem_values (Q : V -> Prop) (d : list (string * V)) (key : string)
  (value : V) :
  Forall (fun kv => Q (snd kv)) d -> Q value ->
  Forall (fun kv => Q (snd kv)) (dict_setitem d key value).
Proof.
  intros Hd Hv.
  induction d as [| [k v] rest IH]; cbn.
  - constructor; [exact Hv | constructor].
  - inversion Hd as [| x l Hx Hrest]; subst.
    destruct (String.eqb k key).
    + constructor; [exact Hv | exact Hrest].
    + constructor; [exact Hx | apply IH; exact Hrest].
Qed.

End dict_setitem_facts.

Section normalizer_facts.

Variable env : environment.
Variable py_str : pyval -> string.
Variable model_dump : string -> list (string * pyval) -> pyval.

Local Notation "'normalize'" := (_make_json_serializable env py_str model_dump).
Local Notation "'step'" :=
  (fun (new_dict : list (string * pyval)) (kv : pyval * pyval) =>
     dict_setitem new_dict (new_key py_str (fst kv)) (normalize (snd kv))).
Local Notation "'as_entry'" := (fun kv : string * pyval => (PStr (fst kv), snd kv)).

Lemma normalize_list (items : list pyval) :
  normalize (PList items) = PList (map normalize items).
Proof. reflexivity. Qed.

Lemma normalize_tuple (items : list pyval) :
  normalize (PTuple items) = PList (map normalize items).
Proof. reflexivity. Qed.

Lemma normalize_dict (entries : list (pyval * pyval)) :
  normalize (PDict entries) = PDict (map as_entry (fold_left step entries [])).
Proof. reflexivity. Qed.

(** A set comes back as it went in, and a record instance comes back as
    whatever [model_dump()] answers, with no further pass over it. *)
Lemma normalize_set (items : list pyval) :
  normalize (PSet items) = PSet items.
Proof. reflexivity. Qed.

Lemma normalize_model (cls : string) (fields : list (string * pyval)) :
  normalize (PModel cls fields) = model_dump cls fields.
Proof. reflexivity. Qed.

Lemma fold_step_values (Q : pyval -> Prop) (entries : list (pyval * pyval)) :
  Forall (fun kv => Q (normalize (snd kv))) entries ->
  forall acc, Forall (fun kv => Q (snd kv)) acc ->
              Forall (fun kv => Q (snd kv)) (fold_left step entries acc).
Proof.
  induction 1 as [| kv rest Hkv Hrest IH]; intros acc Hacc; cbn [fold_left].
  - exact Hacc.
  - apply IH. apply dict_setitem_values; assumption.
Qed.

Lemma fold_step_NoDup (entries : list (pyval * pyval)) :
  forall acc, NoDup (map fst acc) -> NoDup (map fst (fold_left step entries acc)).
Proof.
  induction entries as [| kv rest IH]; intros acc Hacc; cbn [fold_left].
  - exact Hacc.
  - apply IH. apply dict_setitem_NoDup. exact Hacc.
Qed.

(** Filling a dict from entries whose keys are already distinct text and
    whose values the normalizer leaves alone rebuilds those entries. *)
Lemma fold_step_rebuild (l : list (string * pyval)) :
  forall acc,
    NoDup (map fst (acc ++ l)) ->
    Forall (fun kv => normalize (snd kv) = snd kv) l ->
    fold_left step (map as_entry l) acc = (acc ++ l)%list.
Proof.
  induction l as [| [k v] rest IH]; intros acc Hnodup Hfixed; cbn [map fold_left].
  - rewrite app_nil_r. reflexivity.
  - inversion Hfixed as [| x xs Hv Hrest]; subst. cbn in Hv.
    cbn [fst snd new_key]. rewrite Hv.
    rewrite dict_setitem_fresh.
    + rewrite IH; [rewrite <- app_assoc; reflexivity | | exact Hrest].
      rewrite <- app_assoc. exact Hnodup.
    + rewrite map_app in Hnodup. cbn in Hnodup.
      apply NoDup_remove_2 in Hnodup.
      intros Hin. apply Hnodup. apply in_or_app. left. exact Hin.
Qed.

Lemma normalize_idempotent_on_plain (v : pyval) :
  plain v = true -> normalize (normalize v) = normalize v.
Proof.
  induction v as [| | | | | items IH | items IH | items IH | entries IH
                  | cls fields IH | item IH | |] using pyval_nested_ind;
    intros Hplain; try reflexivity; try discriminate.
  - (* list *)
    cbn [plain] in Hplain. rewrite forallb_forall in Hplain.
    rewrite !normalize_list, map_map. f_equal.
    apply map_ext_in. intros x Hx.
    rewrite Forall_forall in IH. apply IH; auto.
  - (* tuple *)
    cbn [plain] in Hplain. rewrite forallb_forall in Hplain.
    rewrite normalize_tuple, normalize_list, map_map. f_equal.
    apply map_ext_in. intros x Hx.
    rewrite Forall_forall in IH. apply IH; auto.
  - (* dict *)
    cbn [plain] in Hplain. rewrite forallb_forall in Hplain.
    rewrite !normalize_dict. f_equal. f_equal.
    rewrite (fold_step_rebuild (fold_left step entries []) []).
    + reflexivity.
    + cbn [app]. apply fold_step_NoDup. constructor.
    + apply (fold_step_values (fun w => normalize w = w)); [| constructor].
      rewrite Forall_forall in IH |- *. intros kv Hin.
      apply (proj2 (IH kv Hin)). apply Hplain. exact Hin.
Qed.

Lemma normalize_clean_on_normalizable (v : pyval) :
  normalizable model_dump v = true -> json_clean (normalize v) = true.
Proof.
  induction v as [| | | | | items IH | items IH | items IH | entries IH
                  | cls fields IH | item IH | | descr clean]
    using pyval_nested_ind;
    intros Hok; try reflexivity; try discriminate.
  - (* list *)
    cbn [normalizable] in Hok. rewrite forallb_forall in Hok.
    rewrite normalize_list. cbn [json_clean].
    rewrite forallb_forall. intros w Hw.
    apply in_map_iff in Hw. destruct Hw as [x [<- Hx]].
    rewrite Forall_forall in IH. apply IH; auto.
  - (* tuple *)
    cbn [normalizable] in Hok. rewrite forallb_forall in Hok.
    rewrite normalize_tuple. cbn [json_clean].
    rewrite forallb_forall. intros w Hw.
    apply in_map_iff in Hw. destruct Hw as [x [<- Hx]].
    rewrite Forall_forall in IH. apply IH; auto.
  - (* dict *)
    cbn [normalizable] in Hok. rewrite forallb_forall in Hok.
    rewrite normalize_dict. cbn [json_clean].
    rewrite forallb_forall. intros w Hw.
    apply in_map_iff in Hw. destruct Hw as [kv [<- Hkv]]. cbn [fst snd is_str andb].
    assert (Hall : Forall (fun kv => json_clean (snd kv) = true)
                     (fold_left step entries [])).
    { apply (fold_step_values (fun w => json_clean w = true)); [| constructor].
      rewrite Forall_forall in IH |- *. intros e Hin.
      apply (proj2 (IH e Hin)). apply Hok. exact Hin. }
    rewrite Forall_forall in Hall. apply Hall. exact Hkv.
  - (* record instance *)
    cbn [normalizable] in Hok. rewrite normalize_model. exact Hok.
  - (* numpy scalar *)
    cbn [normalizable] in Hok. cbn.
    destruct (numpy_installed env); [exact Hok | reflexivity].
  - (* another object that holds values *)
    exact Hok.
Qed.

End normalizer_facts.

(** The worked example of the specification: a tuple key becomes its text. *)
Example normalize_tuple_key :
  _make_json_serializable Reference.no_connector Reference.py_str Reference.model_dump
    (PDict [(PTuple [PStr "a"; PStr "b"], PInt 1)])
  = PDict [(PStr "('a', 'b')", PInt 1)].
Proof. reflexivity. Qed.

(** C2, as stated, fails: a set is returned unchanged, alone or inside a
    list, and a record instance is replaced by its dump, whose tuple field
    stays a tuple. *)
Lemma normalizer_result_not_always_clean :
  json_clean
    (_make_json_serializable Reference.no_connector Reference.py_str Reference.model_dump
       (PSet [PInt 1; PInt 2])) = false
  /\ json_clean
       (_make_json_serializable Reference.no_connector Reference.py_str Reference.model_dump
          (PList [PSet [PInt 1; PInt 2]])) = false
  /\ json_clean
       (_make_json_serializable Reference.no_connector Reference.py_str Reference.model_dump
          (PModel "Point" [("xy", PTuple [PInt 1; PInt 2])])) = false.
Proof. repeat split; reflexivity. Qed.

(** C2, amended: for a value in which, outside dict keys, no set occurs,
    and in which the [model_dump()] of every record instance, the [item()]
    of every numpy scalar and every other object that holds values (a
    deque, a mapping proxy) already meet the invariant, the result of the
    normalizer holds no tuple, no set, no record instance and no non-text
    key at any depth. *)
Theorem normalizer_result_is_clean
  (env : environment) (py_str : pyval -> string)
  (model_dump : string -> list (string * pyval) -> pyval) (v : pyval) :
  normalizable model_dump v = true ->
  json_clean (_make_json_serializable env py_str model_dump v) = true.
Proof. apply normalize_clean_on_normalizable. Qed.

(** C2 amended, at [{("a", "b"): (1, np.int64(2)), 3: [None, Point(x=1),
    deque([1])]}]. *)
Lemma normalizer_result_is_clean_example :
  normalizable Reference.model_dump
    (PDict [(PTuple [PStr "a"; PStr "b"], PTuple [PInt 1; PNumpy (PInt 2)]);
            (PInt 3, PList [PNone; PModel "Point" [("x", PInt 1)];
                            PForeign "deque([1])" true])]) = true
  /\ json_clean
       (_make_json_serializable Reference.no_connector Reference.py_str
          Reference.model_dump
          (PDict [(PTuple [PStr "a"; PStr "b"], PTuple [PInt 1; PNumpy (PInt 2)]);
                  (PInt 3, PList [PNone; PModel "Point" [("x", PInt 1)];
                                  PForeign "deque([1])" true])])) = true.
Proof.
  split; [reflexivity |].
  apply (normalizer_result_is_clean Reference.no_connector Reference.py_str
           Reference.model_dump).
  reflexivity.
Defined.

(** Objects that hold values and that no branch opens come back as they
    are, with whatever they hold: a deque of tuples stays one. *)
Example normalizer_leaves_foreign_containers :
  _make_json_serializable Reference.no_connector Reference.py_str Reference.model_dump
    (PList [PForeign "deque([(1, 2)])" false])
  = PList [PForeign "deque([(1, 2)])" false]
  /\ normalizable Reference.model_dump (PList [PForeign "deque([(1, 2)])" false])
     = false.
Proof. split; reflexivity. Qed.

(** C3: on values built from primitive scalars, lists, tuples and dicts the
    normalizer is idempotent. *)
Theorem normalizer_idempotent
  (env : environment) (py_str : pyval -> string)
  (model_dump : string -> list (string * pyval) -> pyval) (x : pyval) :
  plain x = true ->
  _make_json_serializable env py_str model_dump
    (_make_json_serializable env py_str model_dump x)
  = _make_json_serializable env py_str model_dump x.
Proof. apply normalize_idempotent_on_plain. Qed.

(** C3 at [[1, [2, 3], {"x": 1}]]. *)
Lemma normalizer_idempotent_example :
  _make_json_serializable Reference.no_connector Reference.py_str Reference.model_dump
    (_make_json_serializable Reference.no_connector Reference.py_str Reference.model_dump
       (PList [PInt 1; PList [PInt 2; PInt 3]; PDict [(PStr "x", PInt 1)]]))
  = _make_json_serializable Reference.no_connector Reference.py_str Reference.model_dump
      (PList [PInt 1; PList [PInt 2; PInt 3]; PDict [(PStr "x", PInt 1)]]).
Proof.
  apply (normalizer_idempotent Reference.no_connector Reference.py_str
           Reference.model_dump).
  reflexivity.
Defined.

(** Outside those values a second pass can still change the result: a
    record's dump is returned as is, so its tuple field is only rewritten
    by the next pass. *)
Example normalizer_not_idempotent_on_records :
  _make_json_serializable Reference.no_connector Reference.py_str Reference.model_dump
    (PModel "Point" [("xy", PTuple [PInt 1; PInt 2])])
  = PDict [(PStr "xy", PTuple [PInt 1; PInt 2])]
  /\ _make_json_serializable Reference.no_connector Reference.py_str Reference.model_dump
       (PDict [(PStr "xy", PTuple [PInt 1; PInt 2])])
     = PDict [(PStr "xy", PList [PInt 1; PInt 2])].
Proof. split; reflexivity. Qed.

(** ** TableWriter: the DDL statement *)

Lemma map_outcome_cons {A B : Type} (f : A -> outcome B) (x : A) (rest : list A) :
  map_outcome f (x :: rest) =
  match f x with
  | Return y =>
      match map_outcome f rest with
      | Return ys => Return (y :: ys)
      | Raise e => Raise e
      end
  | Raise e => Raise e
  end.
Proof. reflexivity. Qed.

Lemma columns_of_fields (cm : type_mapping) (fields : list (string * annotation)) :
  exists descriptors : list (string * string),
    map fst descriptors = map (fun field => upper (fst field)) fields
    /\ Forall2 (fun field d =>
                  get_snowflake_type (snd field) (Some cm) = Return (snd d))
         fields descriptors
    /\ map_outcome
         (fun field =>
            sql_type <- get_snowflake_type (snd field) (Some cm) ;;
            Return (upper (fst field) ++ " " ++ sql_type))
         fields
       = Return (map (fun d => fst d ++ " " ++ snd d) descriptors).
Proof.
  induction fields as [| [name ann] rest [descriptors [Hnames [Htypes Hrun]]]].
  - exists []. repeat split; constructor.
  - destruct (get_snowflake_type_total ann (Some cm)) as [sql_type Hty].
    exists ((upper name, sql_type) :: descriptors). repeat split.
    + cbn. rewrite Hnames. reflexivity.
    + constructor; [exact Hty | exact Htypes].
    + rewrite map_outcome_cons, Hrun. cbn [fst snd]. rewrite Hty. reflexivity.
Qed.

(** C9: the statement is [CREATE OR REPLACE TABLE db.schema.table (C1 T1,
    C2 T2, ...)], one column per field in declaration order, the name
    uppercased and the type the one [get_snowflake_type] returns, for a
    model whose field names are ASCII, as [upper] is [str.upper()] there;
    for [{id: int, name: str, tags: list[str]}] and D, S, T it is the
    statement of the specification. *)
Theorem get_create_table_sql_statement :
  (forall (self : PydanticToSnowflake) (mc : model_class),
      forallb (fun field => ascii_text (fst field)) (model_fields mc) = true ->
      exists descriptors : list (string * string),
        map fst descriptors = map (fun field => upper (fst field)) (model_fields mc)
        /\ Forall2 (fun field d =>
                      get_snowflake_type (snd field) (Some (custom_type_mapping self))
                      = Return (snd d))
             (model_fields mc) descriptors
        /\ get_create_table_sql self mc
           = Return (create_table_statement (database self) (schema self)
                       (table self) descriptors))
  /\ (forall conn : Connection,
         get_create_table_sql (init conn "D" "S" "T" None) Scenario.Item
         = Return "CREATE OR REPLACE TABLE D.S.T (ID NUMBER, NAME VARCHAR, TAGS VARIANT)").
Proof.
  split.
  - intros self mc _.
    destruct (columns_of_fields (custom_type_mapping self) (model_fields mc))
      as [descriptors [Hnames [Htypes Hrun]]].
    exists descriptors. repeat split; try assumption.
    unfold get_create_table_sql. rewrite Hrun. reflexivity.
  - intros conn. reflexivity.
Qed.

(** C9 at [Item] with a custom mapping that names its own type for [str]. *)
Lemma get_create_table_sql_statement_example :
  exists descriptors : list (string * string),
    map fst descriptors = ["ID"; "NAME"; "TAGS"]
    /\ Forall2 (fun field d =>
                  get_snowflake_type (snd field)
                    (Some [(Class (Builtin c_str), "TEXT")])
                  = Return (snd d))
         (model_fields Scenario.Item) descriptors
    /\ get_create_table_sql Scenario.text_table Scenario.Item
       = Return (create_table_statement "D" "S" "T" descriptors).
Proof.
  apply (proj1 get_create_table_sql_statement Scenario.text_table Scenario.Item).
  reflexivity.
Defined.

(** ** SchemaComparator *)

(** Once the catalog has answered, the rest of the body is the comparison. *)
Lemma check_table_schema_body_retrieved
  (self : PydanticToSnowflake) (mc : model_class) (rows : list (list cell))
  (t : list call) :
  cursor (connection self) = None ->
  cur_execute (connection self) (catalog_query self) = None ->
  cur_fetchall (connection self) (catalog_query self) = Return rows ->
  cur_close (connection self) = None ->
  check_table_schema_body self mc t =
  (match rows with
   | [] => Return false
   | _ =>
       expected <- expected_columns self mc ;;
       if negb (List.length expected =? List.length rows)%nat then Return false
       else compare_columns (combine expected rows)
   end, (t ++ catalog_calls self)%list).
Proof.
  intros Hcursor Hexecute Hfetch Hclose.
  unfold check_table_schema_body, invoke, invoke_for, catalog_calls.
  cbn -[catalog_query expected_columns compare_columns].
  rewrite Hcursor, Hexecute, Hfetch, Hclose.
  repeat rewrite <- app_assoc. cbn [app].
  destruct rows as [| row rows']; [reflexivity |].
  unfold lift.
  destruct (expected_columns self mc) as [expected | e]; [| reflexivity].
  cbn -[catalog_query compare_columns].
  destruct (negb _); reflexivity.
Qed.

Lemma accepted_positions_compare
  (self : PydanticToSnowflake) (fields : list (string * annotation))
  (rows : list (list cell)) :
  Forall2 (position_accepted self) fields rows ->
  exists expected,
    map_outcome
      (fun field =>
         sql_type <- get_snowflake_type (snd field)
                       (Some (custom_type_mapping self)) ;;
         Return (upper (fst field), upper sql_type))
      fields = Return expected
    /\ List.length expected = List.length rows
    /\ compare_columns (combine expected rows) = Return true.
Proof.
  induction 1 as [| [name ann] row fields' rows' Hpos Hrest
                    [expected [Hrun [Hlen Hcmp]]]].
  - exists []. repeat split; reflexivity.
  - destruct Hpos as [act_col [act_type [sql_type [others [-> [Hty [Hname Hin]]]]]]].
    cbn [fst snd] in Hty, Hname.
    exists ((upper name, upper sql_type) :: expected). repeat split.
    + rewrite map_outcome_cons, Hrun. cbn [fst snd]. rewrite Hty. reflexivity.
    + cbn. rewrite Hlen. reflexivity.
    + cbn [combine compare_columns cell_upper].
      cbn [bind Monad_outcome].
      rewrite Hname, String.eqb_refl. cbn [negb].
      rewrite Hin. cbn [negb]. exact Hcmp.
Qed.



(** C8: [check_table_schema] always returns a boolean, and that boolean is
    False whenever anything inside the [try] raises: the cursor, the query,
    the fetch, the close, the type mapping or the comparison of a row. *)
Theorem check_table_schema_swallows_exceptions
  (self : PydanticToSnowflake) (mc : model_class) (t : list call) :
  (exists b, fst (check_table_schema self mc t) = Return b)
  /\ (forall e, fst (check_table_schema_body self mc t) = Raise e ->
                check_table_schema self mc t
                = (Return false, snd (check_table_schema_body self mc t))).
Proof.
  unfold check_table_schema, try_except.
  destruct (check_table_schema_body self mc t) as [[b | e] t'] eqn:Hbody;
    cbn [fst snd select_clause is_Exception ret Monad_action]; split; eauto.
  - intros e He. discriminate.
Qed.

(** C8 at a table the catalog does not know: the query raises, the method
    answers False. *)
Lemma check_table_schema_table_not_found :
  check_table_schema Scenario.missing_table Scenario.Item []
  = (Return false, [CallCursor; CallExecute (catalog_query Scenario.missing_table)]).
Proof.
  apply (proj2 (check_table_schema_swallows_exceptions
                  Scenario.missing_table Scenario.Item [])
           Scenario.does_not_exist).
  reflexivity.
Defined.

(** Exceptions of the comparison itself are swallowed as well: a NULL
    catalog cell has no [upper()], a one-cell row cannot be unpacked. *)
Example check_table_schema_malformed_rows :
  let answers rows :=
    init (Scenario.native_connection (fun _ => None) (Return rows) (fun _ => None))
      "D" "S" "T" None in
  fst (check_table_schema_body (answers [[CellStr "ORDER"; CellNone]]) Scenario.Order [])
  = Raise (mk_exn AttributeError "'NoneType' object has no attribute 'upper'")
  /\ fst (check_table_schema (answers [[CellStr "ORDER"; CellNone]]) Scenario.Order [])
     = Return false
  /\ fst (check_table_schema (answers [[CellStr "ORDER"]]) Scenario.Order [])
     = Return false.
Proof. repeat split; reflexivity. Qed.

(** ** TableWriter: [create_table] and [insert_data] *)

(** C10: without the connector package [create_table] raises the import
    error and makes no call at all: the trace is the one it started from,
    so neither [cursor().execute] nor [connection.execute] was attempted,
    and the error is not the combined [RuntimeError]. *)
Theorem create_table_without_connector
  (env : environment) (self : PydanticToSnowflake) (mc : model_class)
  (t : list call) :
  snowflake_connector_installed env = false ->
  exists e,
    create_table env self mc t = (Raise e, t)
    /\ is_ImportError e = true
    /\ exn_cls e <> RuntimeError.
Proof.
  intros Hmissing.
  unfold create_table, lift, import_module. rewrite Hmissing.
  eexists. cbn [bind Monad_action]. repeat split. discriminate.
Qed.

(** C10 at the interpreter without the connector. *)
Lemma create_table_without_connector_example :
  exists e,
    create_table Reference.no_connector Scenario.live_table Scenario.Item []
    = (Raise e, [])
    /\ is_ImportError e = true
    /\ exn_cls e <> RuntimeError.
Proof.
  apply (create_table_without_connector Reference.no_connector
           Scenario.live_table Scenario.Item []).
  reflexivity.
Defined.

(** With the connector installed the same call reaches the warehouse. *)
Example create_table_with_connector :
  create_table Reference.full_install Scenario.live_table Scenario.Item []
  = (Return tt,
     [CallCursor;
      CallExecute "CREATE OR REPLACE TABLE D.S.T (ID NUMBER, NAME VARCHAR, TAGS VARIANT)"]).
Proof. reflexivity. Qed.

Section insert_data_facts.

Variable env : environment.
Variable py_str : pyval -> string.
Variable model_dump : string -> list (string * pyval) -> pyval.
Variable model_dump_json : string -> list (string * pyval) -> outcome string.
Variable json_dumps : pyval -> outcome string.

Local Notation "'insert'" :=
  (insert_data env py_str model_dump model_dump_json json_dumps).
Local Notation "'row_insert'" :=
  (executemany_insert env py_str model_dump model_dump_json json_dumps).
Local Notation "'rows_of'" :=
  (convert_rows env py_str model_dump model_dump_json json_dumps).

Lemma to_dataframe_converted
  (mc : model_class) (data : list instance) (records : list (list pyval))
  (uppercase : bool) :
  pandas_installed env = true ->
  data <> [] ->
  rows_of (map fst (model_fields mc)) data = Return records ->
  exists df,
    to_dataframe env py_str model_dump model_dump_json json_dumps mc data uppercase
    = Return df.
Proof.
  intros Hpandas Hdata Hrows.
  unfold to_dataframe, import_module. rewrite Hpandas.
  cbn [bind Monad_outcome]. rewrite Hrows.
  destruct data as [| item rest]; [contradiction | eauto].
Qed.

(** Without [dialect] and without the bulk helper, [insert_data] is the
    unquoted row-by-row insert and nothing else. *)
Lemma insert_data_without_helper
  (self : PydanticToSnowflake) (mc : model_class) (data : list instance)
  (records : list (list pyval)) (t : list call) :
  pandas_installed env = true ->
  pandas_tools_installed env = false ->
  has_dialect (connection self) = false ->
  data <> [] ->
  rows_of (map fst (model_fields mc)) data = Return records ->
  insert self mc data t = row_insert self mc data false t.
Proof.
  intros Hpandas Htools Hdialect Hdata Hrows.
  destruct (to_dataframe_converted mc data records true Hpandas Hdata Hrows)
    as [df Hdf].
  unfold insert_data, lift, import_module, try_except.
  rewrite Hpandas, Htools, Hdialect, Hdf.
  reflexivity.
Qed.

Lemma executemany_insert_calls
  (self : PydanticToSnowflake) (mc : model_class) (data : list instance)
  (records : list (list pyval)) (quoted : bool) (t : list call) :
  rows_of (map fst (model_fields mc)) data = Return records ->
  cursor (connection self) = None ->
  let stmt := insert_statement self (map fst (model_fields mc)) quoted in
  row_insert self mc data quoted t =
  match cur_executemany (connection self) stmt records with
  | Some e => (Raise e, (t ++ [CallCursor; CallExecutemany stmt records])%list)
  | None =>
      match commit (connection self) with
      | Some e =>
          (Raise e, (t ++ [CallCursor; CallExecutemany stmt records; CallCommit])%list)
      | None =>
          (match cur_close (connection self) with
           | Some e => Raise e
           | None => Return tt
           end,
           (t ++ [CallCursor; CallExecutemany stmt records; CallCommit; CallClose])%list)
      end
  end.
Proof.
  intros Hrows Hcursor stmt.
  unfold executemany_insert, lift, invoke, invoke_for.
  fold stmt. rewrite Hrows.
  cbn [bind Monad_action]. rewrite Hcursor.
  destruct (cur_executemany (connection self) stmt records) as [e |];
    [rewrite <- app_assoc; reflexivity |].
  destruct (commit (connection self)) as [e |];
    [repeat rewrite <- app_assoc; reflexivity |].
  destruct (cur_close (connection self)) as [e |];
    repeat rewrite <- app_assoc; reflexivity.
Qed.

End insert_data_facts.

(** C1, as stated, fails: no [dialect], no bulk helper, and a warehouse that
    refuses the bare column name but would take the quoted one.  The
    unquoted insert is attempted, its error leaves [insert_data] as it was
    raised, and the quoted statement is never sent. *)
Lemma insert_data_unquoted_failure_not_retried :
  insert_data Reference.no_connector Reference.py_str Reference.model_dump
    Reference.model_dump_json Reference.json_dumps
    Scenario.reserved_word_table Scenario.Order Scenario.one_order []
  = (Raise Scenario.syntax_error,
     [CallCursor; CallExecutemany "INSERT INTO S.T (ORDER) VALUES (%s)" [[PInt 1]]])
  /\ executemany_insert Reference.no_connector Reference.py_str Reference.model_dump
       Reference.model_dump_json Reference.json_dumps
       Scenario.reserved_word_table Scenario.Order Scenario.one_order true []
     = (Return tt,
        [CallCursor;
         CallExecutemany
           ("INSERT INTO S.T (" ++ dquote ++ "ORDER" ++ dquote ++ ") VALUES (%s)")
           [[PInt 1]];
         CallCommit; CallClose]).
Proof. split; reflexivity. Qed.

(** C1, amended: on a connection without [dialect], when the bulk helper
    cannot be imported, [insert_data] makes, for a batch that is not empty
    and that converts, the row-by-row insert with the unquoted uppercased
    column names (of a model whose field names are ASCII, where [upper] is
    [str.upper()]); if that insert raises, its exception leaves [insert_data]
    unchanged after those two calls, with no second statement and no
    combined error; if it goes through, the commit and the close follow. *)
Theorem insert_data_without_helper_is_unquoted_insert
  (env : environment) (py_str : pyval -> string)
  (model_dump : string -> list (string * pyval) -> pyval)
  (model_dump_json : string -> list (string * pyval) -> outcome string)
  (json_dumps : pyval -> outcome string)
  (self : PydanticToSnowflake) (mc : model_class) (data : list instance)
  (records : list (list pyval)) (t : list call) :
  forallb (fun field => ascii_text (fst field)) (model_fields mc) = true ->
  pandas_installed env = true ->
  pandas_tools_installed env = false ->
  has_dialect (connection self) = false ->
  data <> [] ->
  convert_rows env py_str model_dump model_dump_json json_dumps
    (map fst (model_fields mc)) data = Return records ->
  cursor (connection self) = None ->
  let stmt := insert_statement self (map fst (model_fields mc)) false in
  (forall e,
      cur_executemany (connection self) stmt records = Some e ->
      insert_data env py_str model_dump model_dump_json json_dumps self mc data t
      = (Raise e, (t ++ [CallCursor; CallExecutemany stmt records])%list))
  /\ (cur_executemany (connection self) stmt records = None ->
      commit (connection self) = None ->
      cur_close (connection self) = None ->
      insert_data env py_str model_dump model_dump_json json_dumps self mc data t
      = (Return tt,
         (t ++ [CallCursor; CallExecutemany stmt records; CallCommit; CallClose])%list)).
Proof.
  intros _ Hpandas Htools Hdialect Hdata Hrows Hcursor stmt.
  rewrite (insert_data_without_helper env py_str model_dump model_dump_json
             json_dumps self mc data records t Hpandas Htools Hdialect Hdata Hrows).
  rewrite (executemany_insert_calls env py_str model_dump model_dump_json
             json_dumps self mc data records false t Hrows Hcursor).
  fold stmt. split.
  - intros e He. rewrite He. reflexivity.
  - intros Hmany Hcommit Hclose. rewrite Hmany, Hcommit, Hclose. reflexivity.
Qed.

(** C1 amended, at the table with the reserved-word column. *)
Lemma insert_data_reserved_word_propagates :
  insert_data Reference.no_connector Reference.py_str Reference.model_dump
    Reference.model_dump_json Reference.json_dumps
    Scenario.reserved_word_table Scenario.Order Scenario.one_order []
  = (Raise Scenario.syntax_error,
     [CallCursor;
      CallExecutemany
        (insert_statement Scenario.reserved_word_table ["order"] false)
        [[PInt 1]]]).
Proof.
  apply (proj1 (insert_data_without_helper_is_unquoted_insert
                  Reference.no_connector Reference.py_str Reference.model_dump
                  Reference.model_dump_json Reference.json_dumps
                  Scenario.reserved_word_table Scenario.Order Scenario.one_order
                  [[PInt 1]] []
                  eq_refl eq_refl eq_refl eq_refl
                  (fun H : Scenario.one_order = [] =>
                     eq_ind Scenario.one_order
                       (fun l => match l with [] => False | _ :: _ => True end)
                       I [] H)
                  eq_refl eq_refl)).
  reflexivity.
Defined.

(** ** Further properties of the specification's section 8 and 4.4 *)

(** A parametrized list, dict, tuple or set annotation is VARIANT under
    every custom mapping: no entry can match what is not a class. *)
Theorem container_annotations_are_VARIANT
  (instance_of_type : bool) (custom_mapping : option type_mapping) :
  get_snowflake_type (Generic origin_list instance_of_type) custom_mapping
  = Return "VARIANT"
  /\ get_snowflake_type (Generic origin_dict instance_of_type) custom_mapping
     = Return "VARIANT"
  /\ get_snowflake_type (Generic origin_tuple instance_of_type) custom_mapping
     = Return "VARIANT"
  /\ get_snowflake_type (Generic origin_set instance_of_type) custom_mapping
     = Return "VARIANT".
Proof.
  assert (Hcustom : forall o,
             (if truthy custom_mapping
              then custom_lookup (Generic o instance_of_type)
                     (dict_items custom_mapping)
              else Return None) = Return (@None string)).
  { intros o. destruct (truthy custom_mapping); [| reflexivity].
    apply custom_lookup_no_match. intros key t _. cbn. discriminate. }
  unfold get_snowflake_type.
  repeat split; rewrite Hcustom; reflexivity.
Qed.

Lemma expected_columns_total (self : PydanticToSnowflake) (mc : model_class) :
  exists expected,
    expected_columns self mc = Return expected
    /\ List.length expected = List.length (model_fields mc).
Proof.
  unfold expected_columns.
  induction (model_fields mc) as [| [name ann] rest [expected [Hrun Hlen]]].
  - exists []. split; reflexivity.
  - destruct (get_snowflake_type_total ann (Some (custom_type_mapping self)))
      as [sql_type Hty].
    exists ((upper name, upper sql_type) :: expected). split.
    + rewrite map_outcome_cons, Hrun. cbn [fst snd]. rewrite Hty. reflexivity.
    + cbn. rewrite Hlen. reflexivity.
Qed.





(** The quoted statement and the combined error of [insert_data] belong to
    the route on which the bulk helper is importable: for a model with
    ASCII field names, once [to_dataframe] has returned the frame (the
    batch is not empty and converts), when the
    helper reports failure, that error is caught, the quoted row-by-row
    insert is made once, and its failure is raised with both messages. *)
Theorem insert_data_helper_failure_falls_back
  (env : environment) (py_str : pyval -> string)
  (model_dump : string -> list (string * pyval) -> pyval)
  (model_dump_json : string -> list (string * pyval) -> outcome string)
  (json_dumps : pyval -> outcome string)
  (self : PydanticToSnowflake) (mc : model_class) (data : list instance)
  (df : dataframe) (records : list (list pyval)) (t : list call) :
  forallb (fun field => ascii_text (fst field)) (model_fields mc) = true ->
  pandas_installed env = true ->
  pandas_tools_installed env = true ->
  has_dialect (connection self) = false ->
  to_dataframe env py_str model_dump model_dump_json json_dumps mc data true
  = Return df ->
  convert_rows env py_str model_dump model_dump_json json_dumps
    (map fst (model_fields mc)) data = Return records ->
  write_pandas (connection self) df = Return false ->
  cursor (connection self) = None ->
  let stmt := insert_statement self (map fst (model_fields mc)) true in
  let helper := CallWritePandas df (table self) (database self) (schema self) in
  (forall e2,
      cur_executemany (connection self) stmt records = Some e2 ->
      insert_data env py_str model_dump model_dump_json json_dumps self mc data t
      = (Raise (mk_exn RuntimeError
                  ("Data insertion failed: write_pandas failed to insert data."
                   ++ "; fallback also failed: " ++ exn_message e2)),
         (t ++ [helper; CallCursor; CallExecutemany stmt records])%list))
  /\ (cur_executemany (connection self) stmt records = None ->
      commit (connection self) = None ->
      cur_close (connection self) = None ->
      insert_data env py_str model_dump model_dump_json json_dumps self mc data t
      = (Return tt,
         (t ++ [helper; CallCursor; CallExecutemany stmt records;
                CallCommit; CallClose])%list)).
Proof.
  intros _ Hpandas Htools Hdialect Hdf Hrows Hhelper Hcursor stmt helper.
  unfold insert_data, lift, import_module, try_except, invoke_for, raise.
  rewrite Hpandas, Htools, Hdialect, Hdf.
  cbn [bind Monad_action]. rewrite Hhelper.
  cbn [negb select_clause is_ImportError is_Exception exn_cls exn_message].
  rewrite (executemany_insert_calls env py_str model_dump model_dump_json
             json_dumps self mc data records true _ Hrows Hcursor).
  fold stmt. fold helper. split.
  - intros e2 He2. rewrite He2. cbn [select_clause is_Exception exn_message].
    rewrite <- app_assoc. reflexivity.
  - intros Hmany Hcommit Hclose. rewrite Hmany, Hcommit, Hclose.
    rewrite <- app_assoc. reflexivity.
Qed.

(** The helper reports failure and the warehouse refuses the insert. *)
Lemma insert_data_helper_failure_example :
  insert_data Reference.full_install Reference.py_str Reference.model_dump
    Reference.model_dump_json Reference.json_dumps
    (Scenario.failing_helper (Some Scenario.refused)) Scenario.Order
    Scenario.one_order []
  = (Raise (mk_exn RuntimeError
              ("Data insertion failed: write_pandas failed to insert data."
               ++ "; fallback also failed: insufficient privileges")),
     [CallWritePandas {| df_columns := ["ORDER"]; df_rows := [[PInt 1]] |} "T" "D" "S";
      CallCursor;
      CallExecutemany
        (insert_statement (Scenario.failing_helper (Some Scenario.refused))
           ["order"] true)
        [[PInt 1]]]).
Proof.
  apply (proj1 (insert_data_helper_failure_falls_back
                  Reference.full_install Reference.py_str Reference.model_dump
                  Reference.model_dump_json Reference.json_dumps
                  (Scenario.failing_helper (Some Scenario.refused)) Scenario.Order
                  Scenario.one_order
                  {| df_columns := ["ORDER"]; df_rows := [[PInt 1]] |}
                  [[PInt 1]] []
                  eq_refl eq_refl eq_refl eq_refl eq_refl eq_refl eq_refl eq_refl)
           Scenario.refused).
  reflexivity.
Defined.

(** * Further properties of the code *)

(** ** [get_snowflake_type] *)

Lemma custom_lookup_filter (py_type : annotation) (items : type_mapping) :
  custom_lookup py_type items =
  Return (match filter (entry_matches py_type) items with
          | (_, sql_type) :: _ => Some sql_type
          | [] => None
          end).
Proof.
  induction items as [| [key sql_type] rest IH].
  - reflexivity.
  - rewrite custom_lookup_cons. cbn [filter]. unfold entry_matches at 1.
    cbn [fst]. destruct (issubclass py_type key) as [[|] | e]; auto.
Qed.

(** The custom mapping decides through the first entry whose key
    [issubclass] accepts for the annotation (a class, an abstract class, a
    tuple or a union), wherever it stands; entries whose test answers False
    or raises [TypeError] have no effect, and with no matching entry the
    result is the one without a custom mapping. *)
Theorem custom_mapping_decides_by_first_match
  (py_type : annotation) (custom_mapping : type_mapping) :
  get_snowflake_type py_type (Some custom_mapping) =
  match filter (entry_matches py_type) custom_mapping with
  | (_, sql_type) :: _ => Return sql_type
  | [] => get_snowflake_type py_type None
  end.
Proof.
  unfold get_snowflake_type.
  destruct custom_mapping as [| entry rest]; [reflexivity |].
  cbn [truthy dict_items]. rewrite custom_lookup_filter.
  destruct (filter (entry_matches py_type) (entry :: rest)) as [| [k t] l];
    reflexivity.
Qed.

Lemma builtin_result_range (py_type : annotation) (sql_type : string) :
  get_snowflake_type py_type None = Return sql_type ->
  In sql_type builtin_sql_types.
Proof.
  unfold get_snowflake_type, builtin_lookup.
  destruct py_type as [c | o [|] | name | c accepts | name accepts]; cbn;
    repeat match goal with
           | |- context [is_subclass ?c ?k] => destruct (is_subclass c k); cbn
           | |- context [match ?o with origin_list => _ | _ => _ end] =>
               destruct o; cbn
           end;
    intros H; injection H as <-; cbn; tauto.
Qed.

(** Whatever the annotation and the mapping, the column type returned is a
    value of the custom mapping or one of BOOLEAN, NUMBER, FLOAT, VARCHAR,
    TIMESTAMP_NTZ, DATE, VARIANT. *)
Theorem get_snowflake_type_range
  (py_type : annotation) (custom_mapping : option type_mapping)
  (sql_type : string) :
  get_snowflake_type py_type custom_mapping = Return sql_type ->
  In sql_type (map snd (dict_items custom_mapping))
  \/ In sql_type builtin_sql_types.
Proof.
  destruct custom_mapping as [items |]; [| right; apply (builtin_result_range py_type); assumption].
  unfold get_snowflake_type at 1.
  destruct items as [| entry rest].
  - intros H. right. apply (builtin_result_range py_type). exact H.
  - cbn [truthy dict_items]. rewrite custom_lookup_filter.
    destruct (filter (entry_matches py_type) (entry :: rest)) as [| [k t] l] eqn:Hf.
    + intros H. right. apply (builtin_result_range py_type). exact H.
    + cbn. intros H. injection H as <-. left.
      assert (Hin : In (k, t) (filter (entry_matches py_type) (entry :: rest)))
        by (rewrite Hf; left; reflexivity).
      apply filter_In in Hin. destruct Hin as [Hin _].
      apply (in_map snd) in Hin. exact Hin.
Qed.

Lemma get_snowflake_type_range_example :
  In "TEXT" (map snd [(Class Scenario.MyEnum, "TEXT")])
  \/ In "TEXT" builtin_sql_types.
Proof.
  apply (get_snowflake_type_range (Class Scenario.MyEnum)
           (Some [(Class Scenario.MyEnum, "TEXT")]) "TEXT").
  reflexivity.
Defined.

(** An annotation that is not a class (Optional[int], a forward reference,
    a parametrized generic) is VARIANT under every custom mapping: no entry
    can match it and no built-in test applies. *)
Theorem non_class_annotation_is_VARIANT
  (py_type : annotation) (custom_mapping : option type_mapping) :
  is_class py_type = false ->
  get_snowflake_type py_type custom_mapping = Return "VARIANT".
Proof.
  intros Hnot.
  assert (Hcustom : (if truthy custom_mapping
                     then custom_lookup py_type (dict_items custom_mapping)
                     else Return None) = Return (@None string)).
  { destruct (truthy custom_mapping); [| reflexivity].
    apply custom_lookup_no_match. intros key t _.
    destruct py_type; try discriminate; cbn; discriminate. }
  unfold get_snowflake_type. rewrite Hcustom.
  destruct py_type as [c | o [|] | name | c accepts | name accepts];
    try discriminate; try (destruct o); reflexivity.
Qed.

(** [Optional[int]] with [{int: "INTEGER"}]: neither INTEGER nor NUMBER. *)
Lemma optional_int_is_VARIANT :
  get_snowflake_type (Scenario.optional (Builtin c_int))
    (Some [(Class (Builtin c_int), "INTEGER")])
  = Return "VARIANT".
Proof.
  apply (non_class_annotation_is_VARIANT (Scenario.optional (Builtin c_int))
           (Some [(Class (Builtin c_int), "INTEGER")])).
  reflexivity.
Defined.

Lemma object_among_ancestors (c : pyclass) :
  existsb (class_eqb (Builtin c_object)) (ancestors c) = true.
Proof.
  destruct c as [[] | name bases]; try reflexivity.
  cbn [ancestors existsb class_eqb orb].
  rewrite existsb_app. cbn. apply orb_true_r.
Qed.

Lemma is_subclass_single_base (name : string) (c : pyclass) (b : builtin_class) :
  is_subclass (UserClass name [c]) (Builtin b) = is_subclass c (Builtin b).
Proof.
  unfold is_subclass.
  cbn [ancestors flat_map existsb class_eqb orb].
  rewrite app_nil_r, existsb_app. cbn [existsb class_eqb].
  destruct (builtin_eq_dec b c_object) as [-> | Hne].
  - rewrite object_among_ancestors. reflexivity.
  - rewrite !orb_false_r. reflexivity.
Qed.

Lemma custom_lookup_single_base (name : string) (c : pyclass)
  (items : type_mapping) :
  forallb builtin_key items = true ->
  custom_lookup (Class (UserClass name [c])) items = custom_lookup (Class c) items.
Proof.
  induction items as [| [key sql_type] rest IH]; intros Hkeys.
  - reflexivity.
  - cbn [forallb] in Hkeys. apply andb_true_iff in Hkeys as [Hkey Hrest].
    rewrite !custom_lookup_cons, (IH Hrest).
    destruct key as [[b | n bs] | o t | s | k accepts | s accepts];
      try discriminate; cbn [issubclass class_of];
      [rewrite is_subclass_single_base |..]; reflexivity.
Qed.

(** A class with one base gets the column type of that base, when every key
    of the custom mapping is a built-in class with the default subclass
    test or an object [issubclass] refuses (no user class, no abstract
    class, no tuple, no union): [class UserId(int)] is NUMBER, a record type
    derived from another record type is VARIANT. *)
Theorem derived_class_maps_as_its_base
  (name : string) (c : pyclass) (custom_mapping : option type_mapping) :
  forallb builtin_key (dict_items custom_mapping) = true ->
  get_snowflake_type (Class (UserClass name [c])) custom_mapping
  = get_snowflake_type (Class c) custom_mapping.
Proof.
  intros Hkeys.
  unfold get_snowflake_type, builtin_lookup.
  rewrite (custom_lookup_single_base name c _ Hkeys).
  cbn [isinstance_type issubclass class_of get_origin].
  rewrite !is_subclass_single_base. reflexivity.
Qed.

(** [class UserId(int)] under [{int: "INTEGER"}]. *)
Lemma derived_class_maps_as_its_base_example :
  get_snowflake_type (Class (UserClass "UserId" [Builtin c_int]))
    (Some [(Class (Builtin c_int), "INTEGER")])
  = get_snowflake_type (Class (Builtin c_int))
      (Some [(Class (Builtin c_int), "INTEGER")]).
Proof.
  apply (derived_class_maps_as_its_base "UserId" (Builtin c_int)
           (Some [(Class (Builtin c_int), "INTEGER")])).
  reflexivity.
Defined.

(** ** [_make_json_serializable] *)

Lemma dict_get_setitem {V : Type} (d : list (string * V)) (k key : string) (x : V) :
  dict_get (dict_setitem d k x) key =
  if String.eqb k key then Some x else dict_get d key.
Proof.
  induction d as [| [k0 v0] rest IH]; cbn.
  - reflexivity.
  - destruct (String.eqb_spec k0 k) as [-> | Hne]; cbn.
    + destruct (String.eqb k key); reflexivity.
    + rewrite IH.
      destruct (String.eqb_spec k0 key) as [-> | Hne'];
        destruct (String.eqb_spec k key) as [-> | Hne'']; congruence.
Qed.

Lemma distinct_NoDup (keys : list string) :
  distinct keys = true <-> NoDup keys.
Proof.
  induction keys as [| k rest IH]; cbn.
  - split; [constructor | reflexivity].
  - rewrite andb_true_iff, negb_true_iff, IH. split.
    + intros [Hfresh Hrest]. constructor; [| exact Hrest].
      intros Hin.
      assert (Hex : existsb (String.eqb k) rest = true)
        by (apply existsb_exists; exists k; split; [exact Hin | apply String.eqb_refl]).
      congruence.
    + intros Hnodup. inversion Hnodup as [| x l Hfresh Hrest]; subst.
      split; [| exact Hrest].
      destruct (existsb (String.eqb k) rest) eqn:Hex; [| reflexivity].
      apply existsb_exists in Hex. destruct Hex as [y [Hin Heq]].
      apply String.eqb_eq in Heq. subst y. contradiction.
Qed.

Section normalizer_dicts.

Variable env : environment.
Variable py_str : pyval -> string.
Variable model_dump : string -> list (string * pyval) -> pyval.

Local Notation "'normalize'" := (_make_json_serializable env py_str model_dump).
Local Notation "'step'" :=
  (fun (new_dict : list (string * pyval)) (kv : pyval * pyval) =>
     dict_setitem new_dict (new_key py_str (fst kv)) (normalize (snd kv))).
Local Notation "'as_entry'" := (fun kv : string * pyval => (PStr (fst kv), snd kv)).

Lemma fold_step_get (key : string) (entries : list (pyval * pyval)) :
  forall acc found,
    dict_get acc key = option_map normalize found ->
    dict_get (fold_left step entries acc) key
    = option_map normalize
        (fold_left
           (fun found kv =>
              if String.eqb (new_key py_str (fst kv)) key
              then Some (snd kv) else found)
           entries found).
Proof.
  induction entries as [| kv rest IH]; intros acc found Hacc; cbn [fold_left].
  - exact Hacc.
  - apply IH. rewrite dict_get_setitem.
    destruct (String.eqb (new_key py_str (fst kv)) key); [reflexivity | exact Hacc].
Qed.

(** Whatever the keys of a dict are, the normalized dict has pairwise
    distinct text keys, and under each of them the normalized value of the
    last entry, in iteration order, whose key coerced to it. *)
Theorem normalized_dict_last_write_wins (entries : list (pyval * pyval)) :
  exists new_dict : list (string * pyval),
    normalize (PDict entries) = PDict (map as_entry new_dict)
    /\ NoDup (map fst new_dict)
    /\ forall key,
        dict_get new_dict key
        = option_map normalize (last_value py_str key entries).
Proof.
  exists (fold_left step entries []). repeat split.
  - apply fold_step_NoDup. constructor.
  - intros key. unfold last_value. apply fold_step_get. reflexivity.
Qed.

(** A value in normal form is returned as it is. *)
Theorem normal_form_unchanged (v : pyval) :
  normal_form v = true -> normalize v = v.
Proof.
  induction v as [| | | | | items IH | items IH | items IH | entries IH
                  | cls fields IH | item IH | |] using pyval_nested_ind;
    intros Hnf; try reflexivity; try discriminate.
  - (* list *)
    cbn [normal_form] in Hnf. rewrite forallb_forall in Hnf.
    rewrite normalize_list. f_equal.
    rewrite <- (map_id items) at 2. apply map_ext_in. intros x Hx.
    rewrite Forall_forall in IH. apply IH; auto.
  - (* dict *)
    cbn [normal_form] in Hnf. apply andb_true_iff in Hnf as [Hentries Hkeys].
    rewrite forallb_forall in Hentries.
    set (l := map (fun kv : pyval * pyval => (key_text (fst kv), snd kv)) entries).
    assert (Hl : map as_entry l = entries).
    { unfold l. rewrite map_map. rewrite <- (map_id entries) at 2.
      apply map_ext_in. intros [k x] Hin. cbn [fst snd].
      specialize (Hentries _ Hin). cbn [fst] in Hentries.
      apply andb_true_iff in Hentries as [Hk _].
      destruct k; try discriminate. reflexivity. }
    rewrite normalize_dict. rewrite <- Hl at 1.
    rewrite (fold_step_rebuild env py_str model_dump l []).
    + cbn [app]. rewrite Hl. reflexivity.
    + cbn [app]. unfold l. rewrite map_map. cbn [fst].
      apply distinct_NoDup. exact Hkeys.
    + unfold l. rewrite Forall_forall. intros kv Hin.
      apply in_map_iff in Hin. destruct Hin as [[k x] [<- Hin]]. cbn [snd].
      rewrite Forall_forall in IH.
      apply (proj2 (IH _ Hin)).
      specialize (Hentries _ Hin). cbn [fst snd] in Hentries.
      apply andb_true_iff in Hentries as [_ Hx]. exact Hx.
Qed.

End normalizer_dicts.

(** [{1: "a", "1": "b", (2,): [3]}]: the two keys that coerce to "1" leave
    one entry, in the place of the first and with the value of the last. *)
Example normalized_dict_collision :
  _make_json_serializable Reference.full_install Reference.py_str Reference.model_dump
    (PDict [(PInt 1, PStr "a"); (PStr "1", PStr "b");
            (PTuple [PInt 2], PList [PInt 3])])
  = PDict [(PStr "1", PStr "b"); (PStr "(2,)", PList [PInt 3])].
Proof. reflexivity. Qed.

(** [[1, {"a": None, "b": [2.5]}]] is in normal form. *)
Lemma normal_form_unchanged_example :
  _make_json_serializable Reference.full_install Reference.py_str Reference.model_dump
    (PList [PInt 1; PDict [(PStr "a", PNone); (PStr "b", PList [PFloat "2.5"])]])
  = PList [PInt 1; PDict [(PStr "a", PNone); (PStr "b", PList [PFloat "2.5"])]].
Proof.
  apply (normal_form_unchanged Reference.full_install Reference.py_str
           Reference.model_dump).
  reflexivity.
Defined.

(** ** [convert_value] and [to_dataframe] *)

Lemma map_outcome_Forall2 {A B : Type} (f : A -> outcome B) (xs : list A) :
  forall ys, map_outcome f xs = Return ys ->
             Forall2 (fun x y => f x = Return y) xs ys.
Proof.
  induction xs as [| x rest IH]; intros ys Hrun.
  - injection Hrun as <-. constructor.
  - rewrite map_outcome_cons in Hrun.
    destruct (f x) as [y | e] eqn:Hx; [| discriminate].
    destruct (map_outcome f rest) as [ys' | e] eqn:Hrest; [| discriminate].
    injection Hrun as <-. constructor; [exact Hx | apply IH; reflexivity].
Qed.

Section buffer_facts.

Variable env : environment.
Variable py_str : pyval -> string.
Variable model_dump : string -> list (string * pyval) -> pyval.
Variable model_dump_json : string -> list (string * pyval) -> outcome string.
Variable json_dumps : pyval -> outcome string.

Local Notation "'convert'" :=
  (convert_value env py_str model_dump model_dump_json json_dumps).

Lemma convert_value_not_container (val cellv : pyval) :
  convert val = Return cellv -> is_container cellv = false.
Proof.
  destruct val; cbn; intros H;
    try (injection H as <-; reflexivity); try discriminate.
  - destruct (json_dumps _); [injection H as <-; reflexivity | discriminate].
  - destruct (json_dumps _); [injection H as <-; reflexivity | discriminate].
  - destruct (json_dumps _); [injection H as <-; reflexivity | discriminate].
  - destruct (model_dump_json _ _); [injection H as <-; reflexivity | discriminate].
Qed.

Lemma convert_rows_shape (col_names : list string) (data : list instance)
  (rows : list (list pyval)) :
  convert_rows env py_str model_dump model_dump_json json_dumps col_names data
  = Return rows ->
  List.length rows = List.length data
  /\ Forall (fun row =>
               List.length row = List.length col_names
               /\ forallb (fun c => negb (is_container c)) row = true) rows.
Proof.
  intros Hrun. unfold convert_rows in Hrun.
  apply map_outcome_Forall2 in Hrun. split.
  - symmetry. exact (Forall2_length Hrun).
  - induction Hrun as [| item row data' rows' Hrow _ IH]; constructor; [| exact IH].
    apply map_outcome_Forall2 in Hrow. split.
    + symmetry. exact (Forall2_length Hrow).
    + clear IH. induction Hrow as [| col c cols cs Hc _ IHrow]; [reflexivity |].
      cbn [forallb]. rewrite IHrow, andb_true_r.
      destruct (getattr item col) as [v | e]; [| discriminate].
      cbn [bind Monad_outcome] in Hc.
      rewrite (convert_value_not_container v c Hc). reflexivity.
Qed.

End buffer_facts.

(** When [to_dataframe] returns, the buffer has one row per record, each
    row has one cell per field of the model, and no cell is a list, tuple,
    set, dict or record: containers went through [json.dumps] or
    [model_dump_json], scalars stayed as they were. *)
Theorem to_dataframe_shape
  (env : environment) (py_str : pyval -> string)
  (model_dump : string -> list (string * pyval) -> pyval)
  (model_dump_json : string -> list (string * pyval) -> outcome string)
  (json_dumps : pyval -> outcome string)
  (mc : model_class) (data : list instance) (uppercase : bool) (df : dataframe) :
  to_dataframe env py_str model_dump model_dump_json json_dumps mc data uppercase
  = Return df ->
  List.length (df_rows df) = List.length data
  /\ Forall (fun row =>
               List.length row = List.length (model_fields mc)
               /\ forallb (fun c => negb (is_container c)) row = true)
       (df_rows df).
Proof.
  unfold to_dataframe. intros Hrun.
  destruct (import_module (pandas_installed env) "pandas"); [| discriminate].
  cbn [bind Monad_outcome] in Hrun.
  destruct (convert_rows env py_str model_dump model_dump_json json_dumps
              (map fst (model_fields mc)) data) as [rows | e] eqn:Hrows;
    [| discriminate].
  apply convert_rows_shape in Hrows. rewrite length_map in Hrows.
  assert (Hdf : df_rows df = rows).
  { destruct data as [| item rest]; [destruct uppercase; [discriminate |] |];
      injection Hrun as <-; reflexivity. }
  rewrite Hdf. exact Hrows.
Qed.

(** The record [{id: 1, name: "a", tags: ["x", "y"]}] of [Item]. *)
Lemma to_dataframe_shape_example :
  List.length [[PInt 1; PStr "a";
                PStr ("[" ++ dquote ++ "x" ++ dquote ++ ", "
                      ++ dquote ++ "y" ++ dquote ++ "]")]]
  = List.length [[("id", PInt 1); ("name", PStr "a");
                  ("tags", PList [PStr "x"; PStr "y"])]]
  /\ Forall (fun row =>
               List.length row = List.length (model_fields Scenario.Item)
               /\ forallb (fun c => negb (is_container c)) row = true)
       [[PInt 1; PStr "a";
         PStr ("[" ++ dquote ++ "x" ++ dquote ++ ", "
               ++ dquote ++ "y" ++ dquote ++ "]")]].
Proof.
  apply (to_dataframe_shape Reference.full_install Reference.py_str
           Reference.model_dump Reference.model_dump_json Reference.json_dumps
           Scenario.Item
           [[("id", PInt 1); ("name", PStr "a");
             ("tags", PList [PStr "x"; PStr "y"])]]
           true
           {| df_columns := ["ID"; "NAME"; "TAGS"];
              df_rows := [[PInt 1; PStr "a";
                           PStr ("[" ++ dquote ++ "x" ++ dquote ++ ", "
                                 ++ dquote ++ "y" ++ dquote ++ "]")]] |}).
  reflexivity.
Defined.

(** ** [check_table_schema] *)


Lemma compare_columns_sound
  (self : PydanticToSnowflake) (fields : list (string * annotation))
  (expected : list (string * string)) :
  Forall2 (fun field exp =>
             exists sql_type,
               get_snowflake_type (snd field) (Some (custom_type_mapping self))
               = Return sql_type
               /\ exp = (upper (fst field), upper sql_type))
    fields expected ->
  forall rows,
    List.length expected = List.length rows ->
    compare_columns (combine expected rows) = Return true ->
    Forall2 (position_accepted self) fields rows.
Proof.
  induction 1 as [| field exp fields' expected' [sql_type [Hty ->]] _ IH];
    intros rows Hlen Hcmp.
  - destruct rows; [constructor | discriminate].
  - destruct rows as [| row rows']; [discriminate |].
    cbn [combine compare_columns] in Hcmp.
    destruct row as [| act_col [| act_type others]]; try discriminate.
    destruct act_col as [name |]; [| discriminate].
    cbn [cell_upper bind Monad_outcome] in Hcmp.
    destruct (String.eqb_spec (upper (fst field)) (upper name)) as [Hname | Hne];
      [| discriminate].
    cbn [negb] in Hcmp.
    destruct act_type as [declared |]; [| discriminate].
    cbn [cell_upper bind Monad_outcome] in Hcmp.
    destruct (str_in (upper sql_type) (upper declared)) eqn:Hin; [| discriminate].
    cbn [negb] in Hcmp.
    constructor.
    + exists name, declared, sql_type, others. repeat split; assumption.
    + apply IH; [cbn in Hlen; lia | exact Hcmp].
Qed.

Lemma expected_columns_Forall2 (self : PydanticToSnowflake) (mc : model_class)
  (expected : list (string * string)) :
  expected_columns self mc = Return expected ->
  Forall2 (fun field exp =>
             exists sql_type,
               get_snowflake_type (snd field) (Some (custom_type_mapping self))
               = Return sql_type
               /\ exp = (upper (fst field), upper sql_type))
    (model_fields mc) expected.
Proof.
  unfold expected_columns. intros Hrun.
  apply map_outcome_Forall2 in Hrun.
  induction Hrun as [| field exp fields' expected' Hfield _ IH]; constructor;
    [| exact IH].
  destruct (get_snowflake_type (snd field) (Some (custom_type_mapping self)))
    as [sql_type | e]; [| discriminate].
  cbn [bind Monad_outcome] in Hfield. injection Hfield as <-.
  exists sql_type. split; reflexivity.
Qed.

(** On ASCII text, [check_table_schema] answers True only for a live table
    that matches: the catalog retrieval went through and returned at least
    one column, and the live columns and the fields of the model correspond
    one to one, in order, each position accepted. *)
Theorem check_table_schema_true_only_if_match
  (self : PydanticToSnowflake) (mc : model_class) (t : list call) :
  ascii_schema_check self mc ->
  fst (check_table_schema self mc t) = Return true ->
  exists rows,
    cursor (connection self) = None
    /\ cur_execute (connection self) (catalog_query self) = None
    /\ cur_fetchall (connection self) (catalog_query self) = Return rows
    /\ cur_close (connection self) = None
    /\ rows <> []
    /\ Forall2 (position_accepted self) (model_fields mc) rows.
Proof.
  intros _.
  unfold check_table_schema, try_except, check_table_schema_body,
    invoke, invoke_for, lift.
  cbn -[catalog_query expected_columns compare_columns].
  destruct (cursor (connection self)) as [e |]; [discriminate |].
  destruct (cur_execute (connection self) (catalog_query self)) as [e |];
    [discriminate |].
  destruct (cur_fetchall (connection self) (catalog_query self)) as [rows | e];
    [| discriminate].
  destruct (cur_close (connection self)) as [e |]; [discriminate |].
  destruct rows as [| row rows']; [discriminate |].
  destruct (expected_columns self mc) as [expected | e] eqn:Hexp; [| discriminate].
  cbn -[catalog_query compare_columns].
  destruct (List.length expected =? S (List.length rows'))%nat eqn:Hlen;
    [| discriminate].
  cbn [negb].
  destruct (compare_columns (combine expected (row :: rows'))) as [[|] | e] eqn:Hcmp;
    try discriminate.
  intros _. exists (row :: rows'). repeat split; try reflexivity.
  - discriminate.
  - apply (compare_columns_sound self (model_fields mc) expected).
    + apply expected_columns_Forall2. exact Hexp.
    + apply Nat.eqb_eq. exact Hlen.
    + exact Hcmp.
Qed.

(** At the live table of [Item]. *)
Lemma check_table_schema_true_only_if_match_example :
  exists rows,
    cursor (connection Scenario.live_table) = None
    /\ cur_execute (connection Scenario.live_table)
         (catalog_query Scenario.live_table) = None
    /\ cur_fetchall (connection Scenario.live_table)
         (catalog_query Scenario.live_table) = Return rows
    /\ cur_close (connection Scenario.live_table) = None
    /\ rows <> []
    /\ Forall2 (position_accepted Scenario.live_table)
         (model_fields Scenario.Item) rows.
Proof.
  apply (check_table_schema_true_only_if_match Scenario.live_table Scenario.Item []).
  - repeat split; try reflexivity.
    intros rows Hrows. injection Hrows as <-. reflexivity.
  - reflexivity.
Defined.

(** ** [create_table] *)





(** ** [insert_data] *)

Section makes_only_facts.

Variable allowed : call -> bool.

Lemma makes_only_ret {A : Type} (a : A) : makes_only allowed (ret a : action A).
Proof. intros t. exists []. rewrite app_nil_r. split; reflexivity. Qed.

Lemma makes_only_lift {A : Type} (o : outcome A) : makes_only allowed (lift o).
Proof. intros t. exists []. rewrite app_nil_r. split; reflexivity. Qed.

Lemma makes_only_raise {A : Type} (e : exn) : makes_only allowed (@raise A e).
Proof. intros t. exists []. rewrite app_nil_r. split; reflexivity. Qed.

Lemma makes_only_invoke_for {A : Type} (c : call) (reply : outcome A) :
  allowed c = true -> makes_only allowed (invoke_for c reply).
Proof.
  intros Hc t. exists [c]. split; [reflexivity |].
  cbn. rewrite Hc. reflexivity.
Qed.

Lemma makes_only_invoke (c : call) (reply : option exn) :
  allowed c = true -> makes_only allowed (invoke c reply).
Proof. intros Hc. apply makes_only_invoke_for. exact Hc. Qed.

Lemma makes_only_bind {A B : Type} (a : action A) (k : A -> action B) :
  makes_only allowed a ->
  (forall x, makes_only allowed (k x)) ->
  makes_only allowed (bind a k).
Proof.
  intros Ha Hk t. cbn [bind Monad_action].
  destruct (Ha t) as [l1 [Ht1 Hl1]].
  destruct (a t) as [[x | e] t1]; cbn [snd] in Ht1; subst t1.
  - destruct (Hk x (t ++ l1)%list) as [l2 [Ht2 Hl2]].
    exists (l1 ++ l2)%list. split.
    + rewrite Ht2, app_assoc. reflexivity.
    + rewrite forallb_app, Hl1, Hl2. reflexivity.
  - exists l1. split; [reflexivity | exact Hl1].
Qed.

Lemma makes_only_try_except {A : Type} (body : action A)
  (clauses : list ((exn -> bool) * (exn -> action A))) :
  makes_only allowed body ->
  Forall (fun clause => forall e, makes_only allowed (snd clause e)) clauses ->
  makes_only allowed (try_except body clauses).
Proof.
  intros Hbody Hclauses t. unfold try_except.
  destruct (Hbody t) as [l1 [Ht1 Hl1]].
  destruct (body t) as [[x | e] t1]; cbn [snd] in Ht1; subst t1.
  - exists l1. split; [reflexivity | exact Hl1].
  - assert (Hsel : forall h, select_clause clauses e = Some h ->
                             makes_only allowed (h e)).
    { clear Hbody. induction Hclauses as [| [accepts handler] rest Hh _ IH];
        intros h Hsome; cbn in Hsome; [discriminate |].
      destruct (accepts e); [injection Hsome as <-; apply Hh | apply IH; exact Hsome]. }
    destruct (select_clause clauses e) as [h |].
    + destruct (Hsel h eq_refl (t ++ l1)%list) as [l2 [Ht2 Hl2]].
      exists (l1 ++ l2)%list. split.
      * rewrite Ht2, app_assoc. reflexivity.
      * rewrite forallb_app, Hl1, Hl2. reflexivity.
    + exists l1. split; [reflexivity | exact Hl1].
Qed.

End makes_only_facts.

Section insert_data_calls.

Variable env : environment.
Variable py_str : pyval -> string.
Variable model_dump : string -> list (string * pyval) -> pyval.
Variable model_dump_json : string -> list (string * pyval) -> outcome string.
Variable json_dumps : pyval -> outcome string.

Lemma executemany_insert_row_calls
  (self : PydanticToSnowflake) (mc : model_class) (data : list instance)
  (quoted : bool) :
  makes_only row_call
    (executemany_insert env py_str model_dump model_dump_json json_dumps
       self mc data quoted).
Proof.
  unfold executemany_insert.
  apply makes_only_bind; [apply makes_only_lift | intros records].
  apply makes_only_bind; [apply makes_only_invoke; reflexivity | intros _].
  apply makes_only_bind; [apply makes_only_invoke; reflexivity | intros _].
  apply makes_only_bind; [apply makes_only_invoke; reflexivity | intros _].
  apply makes_only_invoke. reflexivity.
Qed.

End insert_data_calls.

(** On every route and whatever fails, the calls [insert_data] makes are
    among [cursor()], [executemany], [commit], [close], [to_sql] and
    [write_pandas]: it never calls [execute] on a cursor, [fetchall] or
    [connection.execute], and the calls made before it stay in the trace.
    What [to_sql] and [write_pandas] do inside the library is not part of
    the trace. *)
Theorem insert_data_row_calls_only
  (env : environment) (py_str : pyval -> string)
  (model_dump : string -> list (string * pyval) -> pyval)
  (model_dump_json : string -> list (string * pyval) -> outcome string)
  (json_dumps : pyval -> outcome string)
  (self : PydanticToSnowflake) (mc : model_class) (data : list instance) :
  makes_only row_call
    (insert_data env py_str model_dump model_dump_json json_dumps self mc data).
Proof.
  unfold insert_data.
  apply makes_only_bind; [apply makes_only_lift | intros _].
  apply makes_only_bind; [apply makes_only_lift | intros df].
  destruct (has_dialect (connection self)).
  - apply makes_only_try_except.
    + apply makes_only_invoke. reflexivity.
    + repeat constructor. intros e. apply makes_only_raise.
  - apply makes_only_try_except.
    + apply makes_only_bind; [apply makes_only_lift | intros _].
      apply makes_only_bind; [apply makes_only_invoke_for; reflexivity | intros ok].
      destruct (negb ok); [apply makes_only_raise | apply makes_only_ret].
    + repeat constructor; cbn [snd]; intros e.
      * apply executemany_insert_row_calls.
      * apply makes_only_try_except; [apply executemany_insert_row_calls |].
        repeat constructor. intros e2. apply makes_only_raise.
Qed.

(** A record that cannot be converted (a tuple field, a value [json.dumps]
    refuses, a missing attribute) or a missing pandas stops [insert_data]
    before any call is made, on every route, and the error is raised as it
    is, not wrapped. *)
Theorem insert_data_conversion_error_before_any_call
  (env : environment) (py_str : pyval -> string)
  (model_dump : string -> list (string * pyval) -> pyval)
  (model_dump_json : string -> list (string * pyval) -> outcome string)
  (json_dumps : pyval -> outcome string)
  (self : PydanticToSnowflake) (mc : model_class) (data : list instance)
  (e : exn) (t : list call) :
  to_dataframe env py_str model_dump model_dump_json json_dumps mc data true
  = Raise e ->
  insert_data env py_str model_dump model_dump_json json_dumps self mc data t
  = (Raise e, t).
Proof.
  intros Hdf. unfold insert_data, lift. cbn [bind Monad_action].
  destruct (pandas_installed env) eqn:Hpandas; cbn [import_module].
  - rewrite Hdf. reflexivity.
  - unfold to_dataframe in Hdf. rewrite Hpandas in Hdf.
    cbn [import_module bind Monad_outcome] in Hdf.
    injection Hdf as <-. reflexivity.
Qed.

(** A tuple field, on the SQLAlchemy route. *)
Lemma insert_data_tuple_field_example :
  insert_data Reference.full_install Reference.py_str Reference.model_dump
    Reference.model_dump_json Reference.json_dumps
    (Scenario.sqlalchemy_engine None) Scenario.Order Scenario.tuple_order []
  = (Raise (mk_exn AttributeError "'tuple' object has no attribute 'items'"), []).
Proof.
  apply (insert_data_conversion_error_before_any_call
           Reference.full_install Reference.py_str Reference.model_dump
           Reference.model_dump_json Reference.json_dumps
           (Scenario.sqlalchemy_engine None) Scenario.Order Scenario.tuple_order).
  reflexivity.
Defined.



(** On a connection with [dialect], for a model with ASCII field names,
    once [to_dataframe] has returned the frame with the uppercased labels
    (the batch is not empty and converts), [insert_data] makes the
    one [to_sql] call and nothing else: if it raises [e] the error is a
    RuntimeError "SQLAlchemy insertion failed: e" and no other route is
    tried; if it goes through, [insert_data] returns. *)
Theorem insert_data_dialect_route
  (env : environment) (py_str : pyval -> string)
  (model_dump : string -> list (string * pyval) -> pyval)
  (model_dump_json : string -> list (string * pyval) -> outcome string)
  (json_dumps : pyval -> outcome string)
  (self : PydanticToSnowflake) (mc : model_class) (data : list instance)
  (df : dataframe) (t : list call) :
  forallb (fun field => ascii_text (fst field)) (model_fields mc) = true ->
  pandas_installed env = true ->
  has_dialect (connection self) = true ->
  to_dataframe env py_str model_dump model_dump_json json_dumps mc data true
  = Return df ->
  insert_data env py_str model_dump model_dump_json json_dumps self mc data t
  = (match to_sql (connection self) df with
     | Some e =>
         Raise (mk_exn RuntimeError
                  ("SQLAlchemy insertion failed: " ++ exn_message e))
     | None => Return tt
     end,
     (t ++ [CallToSql df (table self) (schema self)])%list).
Proof.
  intros _ Hpandas Hdialect Hdf.
  unfold insert_data, lift, import_module, try_except, invoke, invoke_for, raise.
  rewrite Hpandas, Hdialect, Hdf. cbn [bind Monad_action].
  destruct (to_sql (connection self) df) as [e |]; reflexivity.
Qed.

(** The engine refuses the append. *)
Lemma insert_data_dialect_route_example :
  insert_data Reference.full_install Reference.py_str Reference.model_dump
    Reference.model_dump_json Reference.json_dumps
    (Scenario.sqlalchemy_engine (Some Scenario.refused)) Scenario.Order
    Scenario.one_order []
  = (Raise (mk_exn RuntimeError
              "SQLAlchemy insertion failed: insufficient privileges"),
     [CallToSql Scenario.one_order_frame "T" "S"]).
Proof.
  apply (insert_data_dialect_route Reference.full_install Reference.py_str
           Reference.model_dump Reference.model_dump_json Reference.json_dumps
           (Scenario.sqlalchemy_engine (Some Scenario.refused)) Scenario.Order
           Scenario.one_order Scenario.one_order_frame []); reflexivity.
Defined.

(** With the bulk helper importable on a connection without [dialect],
    for a model with ASCII field names, once [to_dataframe] has returned
    the frame (the batch is not empty and converts): when the helper reports success, [insert_data] returns after that one
    call, with no cursor, commit or close of its own; when the helper
    raises an [ImportError], the unquoted row-by-row insert runs and its
    error is raised as it is; when the helper raises anything else, the
    quoted row-by-row insert runs and its error is raised together with
    the helper's. *)
Theorem insert_data_helper_outcomes
  (env : environment) (py_str : pyval -> string)
  (model_dump : string -> list (string * pyval) -> pyval)
  (model_dump_json : string -> list (string * pyval) -> outcome string)
  (json_dumps : pyval -> outcome string)
  (self : PydanticToSnowflake) (mc : model_class) (data : list instance)
  (df : dataframe) (records : list (list pyval)) (t : list call) :
  forallb (fun field => ascii_text (fst field)) (model_fields mc) = true ->
  pandas_installed env = true ->
  pandas_tools_installed env = true ->
  has_dialect (connection self) = false ->
  to_dataframe env py_str model_dump model_dump_json json_dumps mc data true
  = Return df ->
  convert_rows env py_str model_dump model_dump_json json_dumps
    (map fst (model_fields mc)) data = Return records ->
  cursor (connection self) = None ->
  let helper := CallWritePandas df (table self) (database self) (schema self) in
  let bare := insert_statement self (map fst (model_fields mc)) false in
  let quoted := insert_statement self (map fst (model_fields mc)) true in
  (write_pandas (connection self) df = Return true ->
   insert_data env py_str model_dump model_dump_json json_dumps self mc data t
   = (Return tt, (t ++ [helper])%list))
  /\ (forall e e2,
         write_pandas (connection self) df = Raise e ->
         is_ImportError e = true ->
         cur_executemany (connection self) bare records = Some e2 ->
         insert_data env py_str model_dump model_dump_json json_dumps self mc data t
         = (Raise e2, (t ++ [helper; CallCursor; CallExecutemany bare records])%list))
  /\ (forall e e2,
         write_pandas (connection self) df = Raise e ->
         is_ImportError e = false ->
         cur_executemany (connection self) quoted records = Some e2 ->
         insert_data env py_str model_dump model_dump_json json_dumps self mc data t
         = (Raise (mk_exn RuntimeError
                     ("Data insertion failed: " ++ exn_message e
                      ++ "; fallback also failed: " ++ exn_message e2)),
            (t ++ [helper; CallCursor; CallExecutemany quoted records])%list)).
Proof.
  intros _ Hpandas Htools Hdialect Hdf Hrows Hcursor helper bare quoted.
  unfold insert_data, lift, import_module, try_except, invoke_for, raise.
  rewrite Hpandas, Htools, Hdialect, Hdf. cbn [bind Monad_action].
  fold helper. repeat split.
  - intros Hok. rewrite Hok. reflexivity.
  - intros e e2 Hraise Himport Hmany. rewrite Hraise.
    cbn [select_clause]. rewrite Himport.
    rewrite (executemany_insert_calls env py_str model_dump model_dump_json
               json_dumps self mc data records false _ Hrows Hcursor).
    fold bare. rewrite Hmany. rewrite <- app_assoc. reflexivity.
  - intros e e2 Hraise Himport Hmany. rewrite Hraise.
    cbn [select_clause is_Exception]. rewrite Himport.
    rewrite (executemany_insert_calls env py_str model_dump model_dump_json
               json_dumps self mc data records true _ Hrows Hcursor).
    fold quoted. rewrite Hmany. cbn [select_clause is_Exception].
    rewrite <- app_assoc. reflexivity.
Qed.

(** The helper raises for a missing optional dependency, and the warehouse
    refuses the insert: the error of the insert is raised alone. *)
Lemma insert_data_helper_import_error_example :
  insert_data Reference.full_install Reference.py_str Reference.model_dump
    Reference.model_dump_json Reference.json_dumps
    (Scenario.raising_helper (mk_exn ImportError "pyarrow is required")
       (Some Scenario.refused))
    Scenario.Order Scenario.one_order []
  = (Raise Scenario.refused,
     [CallWritePandas Scenario.one_order_frame "T" "D" "S"; CallCursor;
      CallExecutemany "INSERT INTO S.T (ORDER) VALUES (%s)" [[PInt 1]]]).
Proof.
  apply (proj1 (proj2 (insert_data_helper_outcomes
                  Reference.full_install Reference.py_str Reference.model_dump
                  Reference.model_dump_json Reference.json_dumps
                  (Scenario.raising_helper (mk_exn ImportError "pyarrow is required")
                     (Some Scenario.refused))
                  Scenario.Order Scenario.one_order Scenario.one_order_frame
                  [[PInt 1]] []
                  eq_refl eq_refl eq_refl eq_refl eq_refl eq_refl eq_refl))
           (mk_exn ImportError "pyarrow is required") Scenario.refused);
    reflexivity.
Defined.

(** ** [create_table_and_insert] *)

Lemma check_table_schema_matching
  (self : PydanticToSnowflake) (mc : model_class) (rows : list (list cell))
  (t : list call) :
  cursor (connection self) = None ->
  cur_execute (connection self) (catalog_query self) = None ->
  cur_fetchall (connection self) (catalog_query self) = Return rows ->
  cur_close (connection self) = None ->
  rows <> [] ->
  Forall2 (position_accepted self) (model_fields mc) rows ->
  check_table_schema self mc t = (Return true, (t ++ catalog_calls self)%list).
Proof.
  intros Hcursor Hexecute Hfetch Hclose Hlive Hpositions.
  unfold check_table_schema, try_except.
  rewrite (check_table_schema_body_retrieved self mc rows t
             Hcursor Hexecute Hfetch Hclose).
  destruct (accepted_positions_compare self (model_fields mc) rows Hpositions)
    as [expected [Hrun [Hlen Hcmp]]].
  fold (expected_columns self mc) in Hrun.
  destruct rows as [| row rows']; [contradiction |].
  rewrite Hrun. cbn [bind Monad_outcome].
  rewrite Hlen, Nat.eqb_refl. cbn [negb].
  rewrite Hcmp. reflexivity.
Qed.

Section create_table_and_insert_facts.

Variable env : environment.
Variable py_str : pyval -> string.
Variable model_dump : string -> list (string * pyval) -> pyval.
Variable model_dump_json : string -> list (string * pyval) -> outcome string.
Variable json_dumps : pyval -> outcome string.

Local Notation "'load'" :=
  (create_table_and_insert env py_str model_dump model_dump_json json_dumps).
Local Notation "'insert'" :=
  (insert_data env py_str model_dump model_dump_json json_dumps).



End create_table_and_insert_facts.


